(** * Authentication providers, sessions and sign-in requests of Theia

    A shallow embedding of

    - [AuthenticationServiceImpl]
      (packages/authentication/src/browser/authentication-service.ts),
      the service of the host application: the registry of providers and
      the map of pending sign-in requests;
    - [AuthenticationExtImpl], the class of the plugin host that answers
      [getSession] and keeps the providers registered by plugins.

    Conventions.  A JavaScript string is a Rocq [string] whose characters
    stand for UTF-16 code units below 256.  A [Map<string, V>] is a
    [gmap string V].  An object used through an index signature
    ([SessionRequestInfo]) is an association list holding its own keys in
    the order [Object.keys] lists them.  A promise is the [outcome] it
    settles with.  Calls that leave the class (events fired, [dispose],
    calls through the RPC proxy, calls of a provider) are appended to a
    log, oldest first.

    Left out: [getProviderIds] and [providerIds] (a [gmap] does not keep
    the order of insertion of a [Map]), and the two [$onDidChange...] by
    which the host has a plugin host fire its events. *)

From Stdlib Require Import String Ascii List ZArith Lia Bool.
From Stdlib Require Import Sorting.Sorted Sorting.Permutation.
From stdpp Require Import base option list sorting strings gmap fin_maps.

Local Open Scope string_scope.
Local Open Scope list_scope.

(** ** Built-ins of JavaScript the two classes rely on *)

Module JS.

(** What a call or an awaited promise ends with: a value, or a thrown
    [Error] carrying its message. *)
Inductive Error : Type := mkError (message : string).

Inductive outcome (A : Type) : Type :=
| Returned (a : A)
| Thrown (e : Error).
Arguments Returned {A} a.
Arguments Thrown {A} e.

(** [Array.prototype.sort()] without a comparator orders strings by
    their code units; [String.le] is that order. *)
Definition sort (a : list string) : list string := merge_sort String.le a.

(** [Array.prototype.join(separator)] *)
Fixpoint join (separator : string) (a : list string) : string :=
  match a with
  | [] => ""
  | [x] => x
  | x :: rest => x +:+ separator +:+ join separator rest
  end.

(** [Array.prototype.indexOf(x)]: the first index holding [x], or -1 *)
Fixpoint indexOf (x : string) (a : list string) : Z :=
  match a with
  | [] => (-1)%Z
  | y :: rest =>
      if String.eqb y x then 0%Z
      else let i := indexOf x rest in
           if (i <? 0)%Z then (-1)%Z else (i + 1)%Z
  end.

(** [String.prototype.toLowerCase()] on code units below 256: the
    letters A-Z and the capital letters of Latin-1 (U+00C0 to U+00DE but
    for the multiplication sign U+00D7) move up by 32. *)
Definition lowerCodeUnit (c : ascii) : ascii :=
  let n := nat_of_ascii c in
  if ((65 <=? n) && (n <=? 90))%nat then ascii_of_nat (n + 32)
  else if ((192 <=? n) && (n <=? 222) && negb (n =? 215))%nat
       then ascii_of_nat (n + 32)
  else c.

Fixpoint toLowerCase (s : string) : string :=
  match s with
  | EmptyString => EmptyString
  | String c rest => String (lowerCodeUnit c) (toLowerCase rest)
  end.

(** [a || b] on strings of which the first may be undefined: the empty
    string and [undefined] are falsy. *)
Definition orElse (a : option string) (b : string) : string :=
  match a with
  | Some s => if String.eqb s "" then b else s
  | None => b
  end.

(** Truthiness of an optional boolean ([undefined] is falsy). *)
Definition truthy (b : option bool) : bool :=
  match b with Some true => true | _ => false end.

End JS.
Export JS.

(** ** Interfaces shared by the two classes *)

Record Account : Type := {
  account_displayName : string;
  account_id : string
}.

Record AuthenticationSession : Type := {
  session_id : string;
  session_accessToken : string;
  session_account : Account;
  session_scopes : list string
}.

Record AuthenticationSessionsChangeEvent : Type := {
  added : list string;
  removed : list string;
  changed : list string
}.

(** [session.scopes.sort()] sorts the array held by the session object,
    which keeps the sorted array afterwards. *)
Definition sortScopes (s : AuthenticationSession) : AuthenticationSession :=
  {| session_id := session_id s;
     session_accessToken := session_accessToken s;
     session_account := session_account s;
     session_scopes := sort (session_scopes s) |}.

(** ** The service of the host application: [AuthenticationServiceImpl] *)

Module Service.

(** A [Disposable] is known by its identity only. *)
Definition Disposable : Type := nat.

(** [AuthenticationProvider], as the service sees it.  The methods are
    third-party code: a field holds what the method answers now. *)
Module Provider.
Record t : Type := {
  id : string;
  supportsMultipleAccounts : bool;
  displayName : string;
  hasSessions : bool;
  getSessions : outcome (list AuthenticationSession);
  login : list string -> outcome AuthenticationSession;
  logout : string -> outcome unit;
  signOut : string -> outcome unit
}.
End Provider.

Record SessionRequest : Type := {
  disposables : list Disposable;
  requestingExtensionIds : list string
}.

(** [{ [scopes: string]: SessionRequest }]: own keys, in the order of
    [Object.keys].  An object holds a key once; the statements that need
    it say so ([NoDup]). *)
Abbreviation SessionRequestInfo := (list (string * SessionRequest)).

(** [info[key]] *)
Fixpoint getRequest (key : string) (info : SessionRequestInfo)
  : option SessionRequest :=
  match info with
  | [] => None
  | (k, r) :: rest => if String.eqb k key then Some r else getRequest key rest
  end.

(** [delete info[key]] *)
Fixpoint deleteRequest (key : string) (info : SessionRequestInfo)
  : SessionRequestInfo :=
  match info with
  | [] => []
  | (k, r) :: rest =>
      if String.eqb k key then deleteRequest key rest
      else (k, r) :: deleteRequest key rest
  end.

(** [Object.keys(info)] *)
Definition keys (info : SessionRequestInfo) : list string := map fst info.

(** What the service lets out. *)
Inductive Effect : Type :=
| DidRegisterAuthenticationProvider (id : string)
| DidUnregisterAuthenticationProvider (id : string)
| DidChangeSessions (providerId : string)
                    (event : AuthenticationSessionsChangeEvent)
| ProviderDispose (provider : Provider.t)
| Dispose (item : Disposable).

Record ServiceState : Type := {
  _placeholderMenuItem : option Disposable;
  _noAccountsMenuItem : option Disposable;
  _signInRequestItems : gmap string SessionRequestInfo;
  _badgeDisposable : option Disposable;
  _authenticationProviders : gmap string Provider.t;
  log : list Effect
}.

(** The service as its constructor leaves it. *)
Definition new : ServiceState :=
  {| _placeholderMenuItem := None; _noAccountsMenuItem := None;
     _signInRequestItems := ∅; _badgeDisposable := None;
     _authenticationProviders := ∅; log := [] |}.

Definition emit (e : list Effect) (st : ServiceState) : ServiceState :=
  {| _placeholderMenuItem := _placeholderMenuItem st;
     _noAccountsMenuItem := _noAccountsMenuItem st;
     _signInRequestItems := _signInRequestItems st;
     _badgeDisposable := _badgeDisposable st;
     _authenticationProviders := _authenticationProviders st;
     log := log st ++ e |}.

Definition set_placeholderMenuItem (v : option Disposable)
           (st : ServiceState) : ServiceState :=
  {| _placeholderMenuItem := v;
     _noAccountsMenuItem := _noAccountsMenuItem st;
     _signInRequestItems := _signInRequestItems st;
     _badgeDisposable := _badgeDisposable st;
     _authenticationProviders := _authenticationProviders st;
     log := log st |}.

Definition set_noAccountsMenuItem (v : option Disposable)
           (st : ServiceState) : ServiceState :=
  {| _placeholderMenuItem := _placeholderMenuItem st;
     _noAccountsMenuItem := v;
     _signInRequestItems := _signInRequestItems st;
     _badgeDisposable := _badgeDisposable st;
     _authenticationProviders := _authenticationProviders st;
     log := log st |}.

Definition set_signInRequestItems (v : gmap string SessionRequestInfo)
           (st : ServiceState) : ServiceState :=
  {| _placeholderMenuItem := _placeholderMenuItem st;
     _noAccountsMenuItem := _noAccountsMenuItem st;
     _signInRequestItems := v;
     _badgeDisposable := _badgeDisposable st;
     _authenticationProviders := _authenticationProviders st;
     log := log st |}.

Definition set_badgeDisposable (v : option Disposable)
           (st : ServiceState) : ServiceState :=
  {| _placeholderMenuItem := _placeholderMenuItem st;
     _noAccountsMenuItem := _noAccountsMenuItem st;
     _signInRequestItems := _signInRequestItems st;
     _badgeDisposable := v;
     _authenticationProviders := _authenticationProviders st;
     log := log st |}.

Definition set_authenticationProviders (v : gmap string Provider.t)
           (st : ServiceState) : ServiceState :=
  {| _placeholderMenuItem := _placeholderMenuItem st;
     _noAccountsMenuItem := _noAccountsMenuItem st;
     _signInRequestItems := _signInRequestItems st;
     _badgeDisposable := _badgeDisposable st;
     _authenticationProviders := v;
     log := log st |}.

(** [if (x) { x.dispose(); }] for an optional disposable *)
Definition disposeIfSet (x : option Disposable) (st : ServiceState)
  : ServiceState :=
  match x with
  | Some d => emit [Dispose d] st
  | None => st
  end.

Definition noProviderRegistered (id : string) : Error :=
  mkError ("No authentication provider '" +:+ id
           +:+ "' is currently registered.").

Definition isAuthenticationProviderRegistered (st : ServiceState)
           (id : string) : bool :=
  bool_decide (is_Some (_authenticationProviders st !! id)).

(** [updateAccountsMenuItem].  The callback of [forEach] is [async] but
    awaits nothing, so it has run when [forEach] returns.  The second [if]
    only holds commented-out code. *)
Definition updateAccountsMenuItem (st : ServiceState) : ServiceState :=
  let hasSession :=
    map_fold (fun _ provider hasSession =>
                hasSession || Provider.hasSessions provider)
             false (_authenticationProviders st) in
  match _noAccountsMenuItem st with
  | Some item =>
      if hasSession
      then set_noAccountsMenuItem None (emit [Dispose item] st)
      else st
  | None => st
  end.

Definition registerAuthenticationProvider (st : ServiceState) (id : string)
           (authenticationProvider : Provider.t) : ServiceState :=
  let st := set_authenticationProviders
              (<[id := authenticationProvider]> (_authenticationProviders st))
              st in
  let st := emit [DidRegisterAuthenticationProvider id] st in
  let st := match _placeholderMenuItem st with
            | Some item =>
                set_placeholderMenuItem None (emit [Dispose item] st)
            | None => st
            end in
  updateAccountsMenuItem st.

(** The last [if] of the source only holds commented-out code. *)
Definition unregisterAuthenticationProvider (st : ServiceState)
           (id : string) : ServiceState :=
  match _authenticationProviders st !! id with
  | Some provider =>
      let st := emit [ProviderDispose provider] st in
      let st := set_authenticationProviders
                  (delete id (_authenticationProviders st)) st in
      let st := emit [DidUnregisterAuthenticationProvider id] st in
      updateAccountsMenuItem st
  | None => st
  end.

(** [scopes.sort().join('')]: the key under which the service files a
    sign-in request. *)
Definition scopesListOf (scopes : list string) : string :=
  join "" (sort scopes).

(** [session.scopes.sort().join('') === requestedScopes].  The sort also
    leaves the array of the provider's session object sorted; the
    service does not look at that array again. *)
Definition sessionCompletes (requestedScopes : string)
           (session : AuthenticationSession) : bool :=
  String.eqb (scopesListOf (session_scopes session)) requestedScopes.

(** The state of the loop of [updateNewSessionRequests]: the service,
    the object [existingRequestsForProvider], and [changed]. *)
Abbreviation LoopState :=
  (ServiceState * SessionRequestInfo * bool)%type.

(** One turn of [Object.keys(existingRequestsForProvider).forEach]. *)
Definition completeRequest (providerId : string)
           (sessions : list AuthenticationSession)
           (acc : LoopState) (requestedScopes : string) : LoopState :=
  let '(st, existingRequestsForProvider, changed) := acc in
  if existsb (sessionCompletes requestedScopes) sessions then
    let st :=
      match getRequest requestedScopes existingRequestsForProvider with
      | Some sessionRequest =>
          emit (map Dispose (disposables sessionRequest)) st
      | None => st
      end in
    let existingRequestsForProvider :=
      deleteRequest requestedScopes existingRequestsForProvider in
    let st :=
      if Nat.eqb (length (keys existingRequestsForProvider)) 0
      then set_signInRequestItems
             (delete providerId (_signInRequestItems st)) st
      else set_signInRequestItems
             (<[providerId := existingRequestsForProvider]>
                (_signInRequestItems st)) st in
    (st, existingRequestsForProvider, true)
  else acc.

(** [updateNewSessionRequests]; the [else] branch of the last test only
    holds commented-out code. *)
Definition updateNewSessionRequests (st : ServiceState)
           (provider : Provider.t) : ServiceState * outcome unit :=
  match _signInRequestItems st !! Provider.id provider with
  | None => (st, Returned tt)
  | Some existingRequestsForProvider =>
      match Provider.getSessions provider with
      | Thrown e => (st, Thrown e)
      | Returned sessions =>
          let '(st, _, changed) :=
            fold_left (completeRequest (Provider.id provider) sessions)
                      (keys existingRequestsForProvider)
                      (st, existingRequestsForProvider, false) in
          if changed then
            if Nat.eqb (size (_signInRequestItems st)) 0
            then (set_badgeDisposable None
                    (disposeIfSet (_badgeDisposable st) st), Returned tt)
            else (st, Returned tt)
          else (st, Returned tt)
      end
  end.

(** [if (event.added)]: an array is truthy, the empty one too. *)
Definition isTruthy (a : list string) : bool := true.

Section SessionsUpdate.

(** [provider.updateSessionItems(event)]: the provider afterwards, and
    what the promise settles with. *)
Variable updateSessionItems :
  Provider.t -> AuthenticationSessionsChangeEvent ->
  Provider.t * outcome unit.

(** [sessionsUpdate].  The registry holds the provider object itself,
    so it sees what [updateSessionItems] did to it. *)
Definition sessionsUpdate (st : ServiceState) (id : string)
           (event : AuthenticationSessionsChangeEvent)
  : ServiceState * outcome unit :=
  let st := emit [DidChangeSessions id event] st in
  match _authenticationProviders st !! id with
  | Some provider =>
      let '(provider, settled) := updateSessionItems provider event in
      let st := set_authenticationProviders
                  (<[id := provider]> (_authenticationProviders st)) st in
      match settled with
      | Thrown e => (st, Thrown e)
      | Returned _ =>
          let st := updateAccountsMenuItem st in
          if isTruthy (added event)
          then updateNewSessionRequests st provider
          else (st, Returned tt)
      end
  | None => (st, Returned tt)
  end.

End SessionsUpdate.

(** [requestNewSession].  Besides the service, the caller's [scopes]
    array is returned as the call leaves it: [scopes.sort()] sorts it in
    place.  All that follows the early [return] in the source is
    commented out.  [providerRequests[scopesList]] is read among the own
    keys of the object: when an object is filed for the provider and the
    key names a property that the object inherits ([toString],
    [constructor], ...), the source throws a [TypeError] at [indexOf],
    which is not modelled; the statements about this function are on
    services with no object filed for the provider, or with no provider
    under the id. *)
Definition requestNewSession (st : ServiceState) (providerId : string)
           (scopes : list string) (extensionId extensionName : string)
  : ServiceState * list string :=
  match _authenticationProviders st !! providerId with
  | Some provider =>
      let providerRequests := _signInRequestItems st !! providerId in
      let scopes := sort scopes in
      let scopesList := join "" scopes in
      let extensionHasExistingRequest :=
        match providerRequests with
        | Some providerRequests =>
            match getRequest scopesList providerRequests with
            | Some request =>
                (indexOf extensionId (requestingExtensionIds request)
                 >? -1)%Z
            | None => false
            end
        | None => false
        end in
      if extensionHasExistingRequest then (st, scopes)
      else (st, scopes)
  | None => (st, scopes)
  end.

Definition getDisplayName (st : ServiceState) (id : string)
  : outcome string :=
  match _authenticationProviders st !! id with
  | Some authProvider => Returned (Provider.displayName authProvider)
  | None => Thrown (noProviderRegistered id)
  end.

Definition supportsMultipleAccounts (st : ServiceState) (id : string)
  : outcome bool :=
  match _authenticationProviders st !! id with
  | Some authProvider =>
      Returned (Provider.supportsMultipleAccounts authProvider)
  | None => Thrown (noProviderRegistered id)
  end.

Definition getSessions (st : ServiceState) (id : string)
  : outcome (list AuthenticationSession) :=
  match _authenticationProviders st !! id with
  | Some authProvider => Provider.getSessions authProvider
  | None => Thrown (noProviderRegistered id)
  end.

Definition login (st : ServiceState) (id : string) (scopes : list string)
  : outcome AuthenticationSession :=
  match _authenticationProviders st !! id with
  | Some authProvider => Provider.login authProvider scopes
  | None => Thrown (noProviderRegistered id)
  end.

Definition logout (st : ServiceState) (id : string) (sessionId : string)
  : outcome unit :=
  match _authenticationProviders st !! id with
  | Some authProvider => Provider.logout authProvider sessionId
  | None => Thrown (noProviderRegistered id)
  end.

Definition signOutOfAccount (st : ServiceState) (id : string)
           (accountName : string) : outcome unit :=
  match _authenticationProviders st !! id with
  | Some authProvider => Provider.signOut authProvider accountName
  | None => Thrown (noProviderRegistered id)
  end.

(** The count of the commented-out badge code: the requesting
    extensions over all requests of all providers. *)
Definition numberOfRequests (st : ServiceState) : nat :=
  map_fold (fun _ providerRequests n =>
              fold_left (fun n request =>
                           n + length (requestingExtensionIds (snd request)))
                        providerRequests n)
           0 (_signInRequestItems st).

(** [dispose]: the body is empty. *)
Definition dispose (st : ServiceState) : ServiceState := st.

End Service.

(** ** [readAllowedExtensions], of the same file *)

Module Storage.

Record AllowedExtension : Type := {
  allowed_id : string;
  allowed_name : string
}.

(** [StorageService], of which [getData] alone is used; [undefined] is
    [None]. *)
Record StorageService : Type := {
  getData : string -> outcome (option string)
}.

(** [try { body } catch (err) { }] around a body that ends with the new
    value of the one variable it assigns: when the body throws, the
    variable keeps [before]. *)
Definition tryCatchKeeping {A} (before : A) (body : outcome A) : A :=
  match body with
  | Returned a => a
  | Thrown _ => before
  end.

(** The key of the storage: the template string of the source. *)
Definition storageKey (providerId accountName : string) : string :=
  providerId +:+ "-" +:+ accountName.

Section ReadAllowedExtensions.

(** [JSON.parse], its result taken at the type the source declares for
    it. *)
Variable JSON_parse : string -> outcome (list AllowedExtension).

(** [readAllowedExtensions]: an empty string is falsy, as [undefined]
    is. *)
Definition readAllowedExtensions (storageService : StorageService)
           (providerId accountName : string)
  : outcome (list AllowedExtension) :=
  let trustedExtensions : list AllowedExtension := [] in
  let trustedExtensions :=
    tryCatchKeeping trustedExtensions
      match getData storageService (storageKey providerId accountName) with
      | Thrown e => Thrown e
      | Returned trustedExtensionSrc =>
          match trustedExtensionSrc with
          | Some src =>
              if String.eqb src "" then Returned trustedExtensions
              else JSON_parse src
          | None => Returned trustedExtensions
          end
      end in
  Returned trustedExtensions.

End ReadAllowedExtensions.

End Storage.

(** ** The plugin host: [AuthenticationExtImpl] *)

Module Ext.

(** [theia.AuthenticationProvider], written by a plugin. *)
Module Provider.
Record t : Type := {
  id : string;
  displayName : string;
  supportsMultipleAccounts : bool;
  getSessions : outcome (list AuthenticationSession);
  login : list string -> outcome AuthenticationSession;
  logout : string -> outcome unit
}.
End Provider.

(** [requestingExtension.model] *)
Record PluginModel : Type := {
  model_id : string;
  model_name : string;
  model_displayName : option string
}.

Record AuthenticationGetSessionOptions : Type := {
  createIfNone : option bool;
  clearSessionPreference : option bool
}.

(** Calls that leave the class: through the proxy of
    [AuthenticationMain] (the methods with a dollar sign in the source)
    and into a provider. *)
Inductive Call : Type :=
| Main_getSession (providerId : string) (scopes : list string)
                  (extensionId extensionName : string)
                  (options : AuthenticationGetSessionOptions)
| Main_getSessions (providerId : string)
| Main_getSessionsPrompt (providerId accountName providerName
                          extensionId extensionName : string)
| Main_selectSession (providerId providerName extensionId
                      extensionName : string)
                     (potentialSessions : list AuthenticationSession)
                     (scopes : list string) (clearSessionPreference : bool)
| Main_loginPrompt (providerName extensionName : string)
| Main_setTrustedExtension (providerId accountName extensionId
                            extensionName : string)
| Main_requestNewSession (providerId : string) (scopes : list string)
                         (extensionId extensionName : string)
| Main_registerAuthenticationProvider (id displayName : string)
                                      (supportsMultipleAccounts : bool)
| Main_unregisterAuthenticationProvider (id : string)
| Main_logout (providerId sessionId : string)
| Provider_onDidChangeSessions (providerId : string)
| Provider_listenerDispose (providerId : string)
| Provider_getSessions (providerId : string)
| Provider_login (providerId : string) (scopes : list string)
| Provider_logout (providerId sessionId : string).

(** What the other side of the proxy answers. *)
Record AuthenticationMain : Type := {
  main_getSession :
    string -> list string -> string -> string ->
    AuthenticationGetSessionOptions ->
    outcome (option AuthenticationSession);
  main_getSessions : string -> outcome (list AuthenticationSession);
  main_getSessionsPrompt :
    string -> string -> string -> string -> string -> outcome bool;
  main_selectSession :
    string -> string -> string -> string -> list AuthenticationSession ->
    list string -> bool -> outcome AuthenticationSession;
  main_loginPrompt : string -> string -> outcome bool;
  main_setTrustedExtension :
    string -> string -> string -> string -> outcome unit;
  main_requestNewSession :
    string -> list string -> string -> string -> outcome unit;
  main_logout : string -> string -> outcome unit
}.

Record ExtState : Type := {
  authenticationProviders : gmap string Provider.t;
  calls : list Call
}.

Definition new : ExtState :=
  {| authenticationProviders := ∅; calls := [] |}.

(** A computation of the class: it may change the state and ends with
    an [outcome]; what was done before a [throw] stays done. *)
Definition M (A : Type) : Type := ExtState -> outcome A * ExtState.

Definition ret {A} (a : A) : M A := fun st => (Returned a, st).

Definition throw {A} (e : Error) : M A := fun st => (Thrown e, st).

Definition bind {A B} (m : M A) (k : A -> M B) : M B :=
  fun st =>
    match m st with
    | (Returned a, st) => k a st
    | (Thrown e, st) => (Thrown e, st)
    end.

(** An awaited call [c] that leaves the class and settles with
    [answer]. *)
Definition await {A} (c : Call) (answer : outcome A) : M A :=
  fun st =>
    (answer, {| authenticationProviders := authenticationProviders st;
                calls := calls st ++ [c] |}).

Definition getProviders : M (gmap string Provider.t) :=
  fun st => (Returned (authenticationProviders st), st).

Definition setProviders (m : gmap string Provider.t) : M unit :=
  fun st => (Returned tt, {| authenticationProviders := m;
                             calls := calls st |}).

Notation "'let*' x := m 'in' k" := (bind m (fun x => k))
  (at level 10, x name, m at level 100, k at level 200).
Notation "'do' m 'in' k" := (bind m (fun _ => k))
  (at level 10, m at level 100, k at level 200).

Definition userDidNotConsent : Error :=
  mkError "User did not consent to login.".

Definition alreadyRegistered (id : string) : Error :=
  mkError ("An authentication provider with id '" +:+ id
           +:+ "' is already registered.").

(** [scopes.sort().join(' ')]: the key by which the plugin host matches
    sessions. *)
Definition orderedScopesOf (scopes : list string) : string :=
  join " " (sort scopes).

(** [s.scopes.sort().join(' ') === orderedScopes], on a session whose
    array has been sorted by this very test. *)
Definition hasOrderedScopes (orderedScopes : string)
           (s : AuthenticationSession) : bool :=
  String.eqb (join " " (session_scopes s)) orderedScopes.

(** [sessions.find(session => session.id === id)] *)
Definition findSession (id : string) (sessions : list AuthenticationSession)
  : option AuthenticationSession :=
  find (fun session => String.eqb (session_id session) id) sessions.

Definition resolveSessions (main : AuthenticationMain) (providerId : string)
  : M (list AuthenticationSession) :=
  let* providers := getProviders in
  match providers !! providerId with
  | None => await (Main_getSessions providerId)
                  (main_getSessions main providerId)
  | Some provider => await (Provider_getSessions providerId)
                           (Provider.getSessions provider)
  end.

Definition hasSessions (main : AuthenticationMain) (providerId : string)
           (scopes : list string) : M bool :=
  let orderedScopes := join " " (sort scopes) in
  let* sessions := resolveSessions main providerId in
  ret (negb (Nat.eqb
               (length (List.filter (hasOrderedScopes orderedScopes)
                                    (map sortScopes sessions)))
               0)).

(** [getSession].  [scopes.sort()] sorts the caller's array in place:
    every later use of [scopes] sees it sorted.  The filter sorts the
    array of each session it visits: the sessions it keeps carry the
    sorted arrays.  Whether the provider reports those arrays sorted
    from then on is up to the provider (it may hand out its own objects
    or copies); the registry keeps the provider as it was registered. *)
Definition getSession (main : AuthenticationMain)
           (requestingExtension : PluginModel) (providerId : string)
           (scopes : list string)
           (options : AuthenticationGetSessionOptions)
  : M (option AuthenticationSession) :=
  let* providers := getProviders in
  let provider := providers !! providerId in
  let extensionName := orElse (model_displayName requestingExtension)
                              (model_name requestingExtension) in
  let extensionId := toLowerCase (model_id requestingExtension) in
  match provider with
  | None =>
      await (Main_getSession providerId scopes extensionId extensionName
                             options)
            (main_getSession main providerId scopes extensionId
                             extensionName options)
  | Some provider =>
      let scopes := sort scopes in
      let orderedScopes := join " " scopes in
      let* all := await (Provider_getSessions providerId)
                        (Provider.getSessions provider) in
      let sessions :=
        List.filter (hasOrderedScopes orderedScopes)
                    (map sortScopes all) in
      match sessions with
      | session :: _ =>
          if negb (Provider.supportsMultipleAccounts provider) then
            let* allowed :=
              await (Main_getSessionsPrompt providerId
                       (account_displayName (session_account session))
                       (Provider.displayName provider)
                       extensionId extensionName)
                    (main_getSessionsPrompt main providerId
                       (account_displayName (session_account session))
                       (Provider.displayName provider)
                       extensionId extensionName) in
            if allowed : bool then ret (Some session)
            else throw userDidNotConsent
          else
            let* selected :=
              await (Main_selectSession providerId
                       (Provider.displayName provider) extensionId
                       extensionName sessions scopes
                       (truthy (clearSessionPreference options)))
                    (main_selectSession main providerId
                       (Provider.displayName provider) extensionId
                       extensionName sessions scopes
                       (truthy (clearSessionPreference options))) in
            ret (findSession (session_id selected) sessions)
      | [] =>
          if truthy (createIfNone options) then
            let* isAllowed :=
              await (Main_loginPrompt (Provider.displayName provider)
                                      extensionName)
                    (main_loginPrompt main (Provider.displayName provider)
                                      extensionName) in
            if negb isAllowed then throw userDidNotConsent
            else
              let* session := await (Provider_login providerId scopes)
                                    (Provider.login provider scopes) in
              do await (Main_setTrustedExtension providerId
                          (account_displayName (session_account session))
                          extensionId extensionName)
                       (main_setTrustedExtension main providerId
                          (account_displayName (session_account session))
                          extensionId extensionName) in
              ret (Some session)
          else
            do await (Main_requestNewSession providerId scopes extensionId
                                             extensionName)
                     (main_requestNewSession main providerId scopes
                                             extensionId extensionName) in
            ret None
      end
  end.

Definition logout (main : AuthenticationMain)
           (providerId sessionId : string) : M unit :=
  let* providers := getProviders in
  match providers !! providerId with
  | None => await (Main_logout providerId sessionId)
                  (main_logout main providerId sessionId)
  | Some provider => await (Provider_logout providerId sessionId)
                           (Provider.logout provider sessionId)
  end.

(** [registerAuthenticationProvider].  The proxy call is not awaited.
    The [Disposable] it returns is [unregister] below. *)
Definition registerAuthenticationProvider (provider : Provider.t) : M unit :=
  let* providers := getProviders in
  match providers !! Provider.id provider with
  | Some _ => throw (alreadyRegistered (Provider.id provider))
  | None =>
      do setProviders (<[Provider.id provider := provider]> providers) in
      do await (Provider_onDidChangeSessions (Provider.id provider))
               (Returned tt) in
      await (Main_registerAuthenticationProvider
               (Provider.id provider) (Provider.displayName provider)
               (Provider.supportsMultipleAccounts provider))
            (Returned tt)
  end.

(** The body of the [Disposable] that [registerAuthenticationProvider]
    returns. *)
Definition unregister (provider : Provider.t) : M unit :=
  do await (Provider_listenerDispose (Provider.id provider))
           (Returned tt) in
  let* providers := getProviders in
  do setProviders (delete (Provider.id provider) providers) in
  await (Main_unregisterAuthenticationProvider (Provider.id provider))
        (Returned tt).

Definition unableToFindProvider (providerId : string) : Error :=
  mkError ("Unable to find authentication provider with handle: "
           +:+ providerId).

Definition unableToFindSession (sessionId : string) : Error :=
  mkError ("Unable to find session with id: " +:+ sessionId).

(** [$login], called by the host. *)
Definition rpc_login (providerId : string) (scopes : list string)
  : M AuthenticationSession :=
  let* providers := getProviders in
  match providers !! providerId with
  | Some authProvider => await (Provider_login providerId scopes)
                               (Provider.login authProvider scopes)
  | None => throw (unableToFindProvider providerId)
  end.

(** [$logout] *)
Definition rpc_logout (providerId sessionId : string) : M unit :=
  let* providers := getProviders in
  match providers !! providerId with
  | Some authProvider => await (Provider_logout providerId sessionId)
                               (Provider.logout authProvider sessionId)
  | None => throw (unableToFindProvider providerId)
  end.

(** [$getSessions] *)
Definition rpc_getSessions (providerId : string)
  : M (list AuthenticationSession) :=
  let* providers := getProviders in
  match providers !! providerId with
  | Some authProvider => await (Provider_getSessions providerId)
                               (Provider.getSessions authProvider)
  | None => throw (unableToFindProvider providerId)
  end.

(** [$getSessionAccessToken] *)
Definition rpc_getSessionAccessToken (providerId sessionId : string)
  : M string :=
  let* providers := getProviders in
  match providers !! providerId with
  | Some authProvider =>
      let* sessions := await (Provider_getSessions providerId)
                             (Provider.getSessions authProvider) in
      match findSession sessionId sessions with
      | Some session => ret (session_accessToken session)
      | None => throw (unableToFindSession sessionId)
      end
  | None => throw (unableToFindProvider providerId)
  end.

End Ext.

(** ** Vocabulary of the statements *)

(** A scope in the shape of an OAuth scope token: not empty and free of
    spaces. *)
Definition hasSpace (s : string) : bool :=
  existsb (Ascii.eqb " "%char) (list_ascii_of_string s).

Definition isScopeToken (s : string) : bool :=
  negb (String.eqb s "") && negb (hasSpace s).

(** The request pending for a provider under a scope key, if any:
    [_signInRequestItems.get(providerId)[key]]. *)
Definition pendingRequest (st : Service.ServiceState) (providerId key : string)
  : option Service.SessionRequest :=
  match Service._signInRequestItems st !! providerId with
  | Some info => Service.getRequest key info
  | None => None
  end.

(** The handles a list of requests holds, request after request. *)
Definition handlesOf (info : Service.SessionRequestInfo)
  : list Service.Disposable :=
  concat (map (fun request => Service.disposables (snd request)) info).

(** The sign-in requests are well kept when no provider is filed with an
    empty object and no request is left without a requesting extension. *)
Definition wellKept (m : gmap string Service.SessionRequestInfo) : Prop :=
  map_Forall
    (fun _ info =>
       info <> [] /\
       Forall (fun request =>
                 Service.requestingExtensionIds (snd request) <> []) info)
    m.

(** A pending request is completed by the sessions a provider reports
    when one of them has the canonical scopes the request is filed
    under. *)
Definition completes (sessions : list AuthenticationSession)
           (request : string * Service.SessionRequest) : bool :=
  existsb (Service.sessionCompletes (fst request)) sessions.

Definition completed (sessions : list AuthenticationSession)
           (info : Service.SessionRequestInfo) : Service.SessionRequestInfo :=
  List.filter (completes sessions) info.

Definition pendingStill (sessions : list AuthenticationSession)
           (info : Service.SessionRequestInfo) : Service.SessionRequestInfo :=
  List.filter (fun request => negb (completes sessions request)) info.

(** How the loop of [updateNewSessionRequests] files the requests left
    for a provider: none left, the provider goes from the map. *)
Definition filed (providerId : string) (info : Service.SessionRequestInfo)
           (m : gmap string Service.SessionRequestInfo)
  : gmap string Service.SessionRequestInfo :=
  if Nat.eqb (length (Service.keys info)) 0
  then delete providerId m
  else <[providerId := info]> m.

(** The sessions [getSession] keeps of those a provider reports: their
    scopes sorted, and matching the scopes asked for. *)
Definition matchingSessions (scopes : list string)
           (all : list AuthenticationSession) : list AuthenticationSession :=
  List.filter (Ext.hasOrderedScopes (Ext.orderedScopesOf scopes))
              (map sortScopes all).

(** The calls of [login] of a provider in a log of calls. *)
Definition isLogin (c : Ext.Call) : bool :=
  match c with
  | Ext.Provider_login _ _ => true
  | _ => false
  end.

Definition logins (l : list Ext.Call) : list Ext.Call := List.filter isLogin l.

(** The calls that change the service, and a service driven by a list
    of them from its construction on. *)
Inductive ServiceCall : Type :=
| CallRegister (id : string) (provider : Service.Provider.t)
| CallUnregister (id : string)
| CallSessionsUpdate (id : string) (event : AuthenticationSessionsChangeEvent)
| CallRequestNewSession (providerId : string) (scopes : list string)
                        (extensionId extensionName : string).

Definition perform
           (updateSessionItems :
              Service.Provider.t -> AuthenticationSessionsChangeEvent ->
              Service.Provider.t * outcome unit)
           (st : Service.ServiceState) (c : ServiceCall)
  : Service.ServiceState :=
  match c with
  | CallRegister id provider =>
      Service.registerAuthenticationProvider st id provider
  | CallUnregister id => Service.unregisterAuthenticationProvider st id
  | CallSessionsUpdate id event =>
      fst (Service.sessionsUpdate updateSessionItems st id event)
  | CallRequestNewSession providerId scopes extensionId extensionName =>
      fst (Service.requestNewSession st providerId scopes
                                     extensionId extensionName)
  end.

(** The [dispose] of a menu item, a request handle or the badge, as
    against the events and the [dispose] of a provider. *)
Definition isItemDispose (e : Service.Effect) : bool :=
  match e with
  | Service.Dispose _ => true
  | _ => false
  end.

Definition withoutItemDisposals (l : list Service.Effect)
  : list Service.Effect :=
  List.filter (fun e => negb (isItemDispose e)) l.

(** Whether the calls leave a provider registered under [id]: the last
    registration or unregistration of that id decides. *)
Definition registeredAfter (cs : list ServiceCall) (id : string) : bool :=
  fold_left (fun registered c =>
               match c with
               | CallRegister i _ =>
                   if String.eqb i id then true else registered
               | CallUnregister i =>
                   if String.eqb i id then false else registered
               | _ => registered
               end)
            cs false.

(** A service that holds no item and has disposed of none. *)
Definition idle (st : Service.ServiceState) : Prop :=
  Service._placeholderMenuItem st = None /\
  Service._noAccountsMenuItem st = None /\
  Service._badgeDisposable st = None /\
  Service._signInRequestItems st = ∅ /\
  Forall (fun e => isItemDispose e = false) (Service.log st).

(** The plugin host after one more call has been logged. *)
Definition afterCall (st : Ext.ExtState) (c : Ext.Call) : Ext.ExtState :=
  {| Ext.authenticationProviders := Ext.authenticationProviders st;
     Ext.calls := Ext.calls st ++ [c] |}.

Definition afterCalls (st : Ext.ExtState) (l : list Ext.Call)
  : Ext.ExtState :=
  {| Ext.authenticationProviders := Ext.authenticationProviders st;
     Ext.calls := Ext.calls st ++ l |}.

Definition hasHyphen (s : string) : bool :=
  existsb (Ascii.eqb "-"%char) (list_ascii_of_string s).

(** ** Sample data *)

Module Sample.

Definition octocat : Account :=
  {| account_displayName := "octocat"; account_id := "1" |}.

Definition repoSession : AuthenticationSession :=
  {| session_id := "s1"; session_accessToken := "t1";
     session_account := octocat; session_scopes := ["repo"] |}.

Definition userSession : AuthenticationSession :=
  {| session_id := "s2"; session_accessToken := "t2";
     session_account := octocat; session_scopes := ["user"] |}.

Definition newSession (scopes : list string) : AuthenticationSession :=
  {| session_id := "s9"; session_accessToken := "t9";
     session_account := octocat; session_scopes := scopes |}.

(** A provider of the service holding [repoSession] and
    [userSession]. *)
Definition acme : Service.Provider.t :=
  {| Service.Provider.id := "acme";
     Service.Provider.supportsMultipleAccounts := false;
     Service.Provider.displayName := "Acme";
     Service.Provider.hasSessions := true;
     Service.Provider.getSessions := Returned [repoSession; userSession];
     Service.Provider.login := fun scopes => Returned (newSession scopes);
     Service.Provider.logout := fun _ => Returned tt;
     Service.Provider.signOut := fun _ => Returned tt |}.

(** Another provider that claims the id of [acme]. *)
Definition acmeAgain : Service.Provider.t :=
  {| Service.Provider.id := "acme";
     Service.Provider.supportsMultipleAccounts := true;
     Service.Provider.displayName := "Acme, again";
     Service.Provider.hasSessions := false;
     Service.Provider.getSessions := Returned [];
     Service.Provider.login := fun scopes => Returned (newSession scopes);
     Service.Provider.logout := fun _ => Returned tt;
     Service.Provider.signOut := fun _ => Returned tt |}.

Definition repoRequest : Service.SessionRequest :=
  {| Service.disposables := [1; 2];
     Service.requestingExtensionIds := ["ext.foo"] |}.

Definition gistRequest : Service.SessionRequest :=
  {| Service.disposables := [3; 4];
     Service.requestingExtensionIds := ["ext.foo"; "ext.bar"] |}.

(** A service with [acme] registered and two sign-in requests pending
    for it, and a badge showing. *)
Definition busy : Service.ServiceState :=
  {| Service._placeholderMenuItem := None;
     Service._noAccountsMenuItem := None;
     Service._signInRequestItems :=
       {[ "acme" := [("repo", repoRequest); ("gist", gistRequest)] ]};
     Service._badgeDisposable := Some 9;
     Service._authenticationProviders := {[ "acme" := acme ]};
     Service.log := [] |}.

(** A new service with [acme] registered and nothing else done. *)
Definition fresh : Service.ServiceState :=
  Service.registerAuthenticationProvider Service.new "acme" acme.

(** A provider whose [updateSessionItems] changes nothing. *)
Definition updateSessionItems (provider : Service.Provider.t)
           (event : AuthenticationSessionsChangeEvent)
  : Service.Provider.t * outcome unit :=
  (provider, Returned tt).


(** A provider of the plugin host, single-account, holding
    [repoSession]. *)
Definition acmeExt : Ext.Provider.t :=
  {| Ext.Provider.id := "acme";
     Ext.Provider.displayName := "Acme";
     Ext.Provider.supportsMultipleAccounts := false;
     Ext.Provider.getSessions := Returned [repoSession];
     Ext.Provider.login := fun scopes => Returned (newSession scopes);
     Ext.Provider.logout := fun _ => Returned tt |}.

Definition acmeExtAgain : Ext.Provider.t :=
  {| Ext.Provider.id := "acme";
     Ext.Provider.displayName := "Acme, again";
     Ext.Provider.supportsMultipleAccounts := true;
     Ext.Provider.getSessions := Returned [];
     Ext.Provider.login := fun scopes => Returned (newSession scopes);
     Ext.Provider.logout := fun _ => Returned tt |}.

Definition foo : Ext.PluginModel :=
  {| Ext.model_id := "Ext.Foo"; Ext.model_name := "foo";
     Ext.model_displayName := Some "Foo" |}.

(** The other side of the proxy, with a user who answers every prompt
    with [consents]. *)
Definition main (consents : bool) : Ext.AuthenticationMain :=
  {| Ext.main_getSession := fun _ _ _ _ _ => Returned (Some repoSession);
     Ext.main_getSessions := fun _ => Returned [repoSession];
     Ext.main_getSessionsPrompt := fun _ _ _ _ _ => Returned consents;
     Ext.main_selectSession := fun _ _ _ _ _ _ _ => Returned repoSession;
     Ext.main_loginPrompt := fun _ _ => Returned consents;
     Ext.main_setTrustedExtension := fun _ _ _ _ => Returned tt;
     Ext.main_requestNewSession := fun _ _ _ _ => Returned tt;
     Ext.main_logout := fun _ _ => Returned tt |}.

(** The other side of a proxy whose calls fail. *)
Definition mainOffline : Ext.AuthenticationMain :=
  {| Ext.main_getSession := fun _ _ _ _ _ => Thrown (mkError "rpc failed");
     Ext.main_getSessions := fun _ => Thrown (mkError "rpc failed");
     Ext.main_getSessionsPrompt :=
       fun _ _ _ _ _ => Thrown (mkError "rpc failed");
     Ext.main_selectSession :=
       fun _ _ _ _ _ _ _ => Thrown (mkError "rpc failed");
     Ext.main_loginPrompt := fun _ _ => Thrown (mkError "rpc failed");
     Ext.main_setTrustedExtension :=
       fun _ _ _ _ => Thrown (mkError "rpc failed");
     Ext.main_requestNewSession :=
       fun _ _ _ _ => Thrown (mkError "rpc failed");
     Ext.main_logout := fun _ _ => Thrown (mkError "rpc failed") |}.

(** A plugin host with [acmeExt] registered. *)
Definition withAcme : Ext.ExtState :=
  {| Ext.authenticationProviders := {[ "acme" := acmeExt ]};
     Ext.calls := [] |}.

(** A storage holding one entry, for [acme] and [octocat]. *)
Definition storage : Storage.StorageService :=
  {| Storage.getData := fun key =>
       if String.eqb key "acme-octocat" then Returned (Some "[foo]")
       else Returned None |}.

(** A parser that knows one text. *)
Definition parse (src : string) : outcome (list Storage.AllowedExtension) :=
  if String.eqb src "[foo]"
  then Returned [{| Storage.allowed_id := "ext.foo";
                    Storage.allowed_name := "Foo" |}]
  else Thrown (mkError "Unexpected token").

(** A provider of the plugin host with several accounts, holding two
    sessions of scope repo. *)
Definition repoSessionOfHubot : AuthenticationSession :=
  {| session_id := "s3"; session_accessToken := "t3";
     session_account := {| account_displayName := "hubot";
                           account_id := "2" |};
     session_scopes := ["repo"] |}.

Definition hub : Ext.Provider.t :=
  {| Ext.Provider.id := "hub";
     Ext.Provider.displayName := "Hub";
     Ext.Provider.supportsMultipleAccounts := true;
     Ext.Provider.getSessions := Returned [repoSession; repoSessionOfHubot];
     Ext.Provider.login := fun scopes => Returned (newSession scopes);
     Ext.Provider.logout := fun _ => Returned tt |}.

Definition withHub : Ext.ExtState :=
  {| Ext.authenticationProviders := {[ "hub" := hub ]};
     Ext.calls := [] |}.

End Sample.

(** * Properties *)

(** ** Sorting and joining *)

Section Sorting.

Lemma sort_sorted (a : list string) : Sorted String.le (sort a).
Proof. apply (Sorted_merge_sort String.le). Qed.

Lemma sort_permutation (a : list string) : sort a ≡ₚ a.
Proof. apply (merge_sort_Permutation String.le). Qed.

(** Two arrays holding the same strings sort to the same array. *)
Lemma sort_of_permutation (a b : list string) : a ≡ₚ b -> sort a = sort b.
Proof.
  intros Hab.
  apply (Sorted_unique String.le); auto using sort_sorted.
  rewrite !sort_permutation. exact Hab.
Qed.

Lemma sort_idempotent (a : list string) : sort (sort a) = sort a.
Proof. apply sort_of_permutation, sort_permutation. Qed.

End Sorting.

(** ** Canonical scope keys *)

Section CanonicalKeys.

Lemma hasSpace_cons (c : ascii) (s : string) :
  hasSpace (String c s) = Ascii.eqb " "%char c || hasSpace s.
Proof. reflexivity. Qed.

Lemma append_empty (s : string) : "" +:+ s = s.
Proof. reflexivity. Qed.

Lemma append_String (c : ascii) (s t : string) :
  String c s +:+ t = String c (s +:+ t).
Proof. reflexivity. Qed.

(** The first space of a string tells where its first word ends. *)
Lemma append_space_inj (x y r r' : string) :
  hasSpace x = false -> hasSpace y = false ->
  x +:+ " " +:+ r = y +:+ " " +:+ r' -> x = y /\ r = r'.
Proof.
  revert y. induction x as [|c x IH]; intros [|d y] Hx Hy Heq;
    repeat (rewrite append_empty in Heq || rewrite append_String in Heq).
  - injection Heq as ->. auto.
  - injection Heq as <- _. rewrite hasSpace_cons in Hy. discriminate.
  - injection Heq as -> _. rewrite hasSpace_cons in Hx. discriminate.
  - injection Heq as -> Heq.
    rewrite hasSpace_cons in Hx, Hy.
    apply orb_false_iff in Hx as [_ Hx]. apply orb_false_iff in Hy as [_ Hy].
    destruct (IH y Hx Hy Heq) as [-> ->]. auto.
Qed.

Lemma hasSpace_append_space (y r : string) : hasSpace (y +:+ " " +:+ r) = true.
Proof.
  induction y as [|d y IH].
  - reflexivity.
  - rewrite append_String, hasSpace_cons, IH. apply orb_true_r.
Qed.

Lemma isScopeToken_spec (s : string) :
  isScopeToken s = true <-> s <> "" /\ hasSpace s = false.
Proof.
  unfold isScopeToken.
  rewrite andb_true_iff, !negb_true_iff, String.eqb_neq. reflexivity.
Qed.

Lemma join_singleton (sep x : string) : join sep [x] = x.
Proof. reflexivity. Qed.

Lemma join_cons2 (sep x y : string) (l : list string) :
  join sep (x :: y :: l) = x +:+ sep +:+ join sep (y :: l).
Proof. reflexivity. Qed.

(** On scope tokens, joining with a space loses nothing. *)
Lemma join_space_inj (l1 l2 : list string) :
  Forall (fun s => isScopeToken s = true) l1 ->
  Forall (fun s => isScopeToken s = true) l2 ->
  join " " l1 = join " " l2 -> l1 = l2.
Proof.
  intros H1. revert l2.
  induction H1 as [|x l1 Hx H1 IH]; intros l2 H2 Heq.
  - destruct H2 as [|y l2 Hy H2]; [reflexivity|].
    apply isScopeToken_spec in Hy as [Hy _].
    destruct l2 as [|z l2]; simpl in Heq.
    + congruence.
    + destruct y; [congruence | discriminate].
  - apply isScopeToken_spec in Hx as [Hx Hxs].
    destruct H2 as [|y l2 Hy H2].
    + destruct l1 as [|z l1]; simpl in Heq.
      * congruence.
      * destruct x; [congruence | discriminate].
    + apply isScopeToken_spec in Hy as [Hy Hys].
      destruct l1 as [|x' l1], l2 as [|y' l2].
      * simpl in Heq. congruence.
      * rewrite join_cons2, join_singleton in Heq. subst x.
        rewrite hasSpace_append_space in Hxs. discriminate.
      * rewrite join_cons2, join_singleton in Heq. subst y.
        rewrite hasSpace_append_space in Hys. discriminate.
      * rewrite !join_cons2 in Heq.
        apply append_space_inj in Heq as [-> Heq]; [|assumption..].
        f_equal. apply IH; assumption.
Qed.

Lemma scopesListOf_permutation (S1 S2 : list string) :
  S1 ≡ₚ S2 -> Service.scopesListOf S1 = Service.scopesListOf S2.
Proof.
  intros H. unfold Service.scopesListOf. f_equal.
  apply sort_of_permutation, H.
Qed.

Lemma orderedScopesOf_permutation (S1 S2 : list string) :
  S1 ≡ₚ S2 -> Ext.orderedScopesOf S1 = Ext.orderedScopesOf S2.
Proof.
  intros H. unfold Ext.orderedScopesOf. f_equal.
  apply sort_of_permutation, H.
Qed.

Lemma orderedScopesOf_tokens_inj (S1 S2 : list string) :
  Forall (fun s => isScopeToken s = true) S1 ->
  Forall (fun s => isScopeToken s = true) S2 ->
  Ext.orderedScopesOf S1 = Ext.orderedScopesOf S2 -> S1 ≡ₚ S2.
Proof.
  intros H1 H2 Heq. unfold Ext.orderedScopesOf in Heq.
  apply join_space_inj in Heq.
  - rewrite <- (sort_permutation S1), <- (sort_permutation S2), Heq.
    reflexivity.
  - eapply Permutation_Forall; [symmetry; apply sort_permutation | exact H1].
  - eapply Permutation_Forall; [symmetry; apply sort_permutation | exact H2].
Qed.

End CanonicalKeys.

(** C8.  Scope lists that are permutations of each other have the same
    canonical scope key, in the service of the host ([sort().join('')]) as
    in the plugin host ([sort().join(' ')]). *)
Theorem canonical_key_of_permutation (S1 S2 : list string) :
  S1 ≡ₚ S2 ->
  Service.scopesListOf S1 = Service.scopesListOf S2 /\
  Ext.orderedScopesOf S1 = Ext.orderedScopesOf S2.
Proof.
  intros H. split.
  - apply scopesListOf_permutation, H.
  - apply orderedScopesOf_permutation, H.
Qed.

Lemma canonical_key_of_permutation_witness :
  ["repo"; "user:email"; "gist"] ≡ₚ ["gist"; "repo"; "user:email"] /\
  Service.scopesListOf ["repo"; "user:email"; "gist"] = "gistrepouser:email" /\
  Service.scopesListOf ["gist"; "repo"; "user:email"] = "gistrepouser:email" /\
  Ext.orderedScopesOf ["repo"; "user:email"; "gist"]
  = Ext.orderedScopesOf ["gist"; "repo"; "user:email"].
Proof.
  assert (H : ["repo"; "user:email"; "gist"] ≡ₚ ["gist"; "repo"; "user:email"]).
  { change (["repo"; "user:email"] ++ ["gist"] ≡ₚ ["gist"] ++ ["repo"; "user:email"]).
    apply Permutation_app_comm. }
  split; [exact H|].
  split; [vm_compute; reflexivity|].
  split; [vm_compute; reflexivity|].
  exact (proj2 (canonical_key_of_permutation _ _ H)).
Defined.

(** C9, as the claim has it, fails: scope lists that are no permutations
    of each other share a key, in the service of the host (no separator)
    and in the plugin host (a scope may hold a space; the empty list and
    the list of the empty scope both give the empty key). *)
Lemma canonical_key_collisions :
  Service.scopesListOf ["ab"; "c"] = Service.scopesListOf ["a"; "bc"] /\
  ~ ["ab"; "c"] ≡ₚ ["a"; "bc"] /\
  Ext.orderedScopesOf ["a b"] = Ext.orderedScopesOf ["a"; "b"] /\
  ~ ["a b"] ≡ₚ ["a"; "b"] /\
  Ext.orderedScopesOf [] = Ext.orderedScopesOf [""] /\
  ~ [] ≡ₚ [""].
Proof.
  repeat split; try (vm_compute; reflexivity).
  - intros H. assert (Hin : "ab" ∈ ["a"; "bc"]) by (rewrite <- H; left).
    rewrite !elem_of_cons, elem_of_nil in Hin.
    destruct Hin as [Hin|[Hin|[]]]; discriminate.
  - intros H. apply Permutation_length in H. discriminate.
  - intros H. apply Permutation_length in H. discriminate.
Qed.

(** C9, amended.  Permuted scope lists have equal keys under both
    canonicalizations; for lists of scope tokens (non-empty, free of
    spaces) the key of the plugin host is equal exactly when the lists are
    permutations of each other. *)
Theorem canonical_key_equivalence (S1 S2 : list string) :
  (S1 ≡ₚ S2 ->
   Service.scopesListOf S1 = Service.scopesListOf S2 /\
   Ext.orderedScopesOf S1 = Ext.orderedScopesOf S2) /\
  (forallb isScopeToken (S1 ++ S2) = true ->
   (Ext.orderedScopesOf S1 = Ext.orderedScopesOf S2 <-> S1 ≡ₚ S2)).
Proof.
  split.
  - intros H. split.
    + apply scopesListOf_permutation, H.
    + apply orderedScopesOf_permutation, H.
  - intros Htok. rewrite forallb_app, andb_true_iff in Htok.
    destruct Htok as [H1 H2].
    rewrite forallb_forall in H1, H2.
    split.
    + apply orderedScopesOf_tokens_inj; apply List.Forall_forall; assumption.
    + apply orderedScopesOf_permutation.
Qed.

Lemma canonical_key_equivalence_witness :
  forallb isScopeToken (["repo"; "gist"] ++ ["gist"; "repo"]) = true /\
  (Ext.orderedScopesOf ["repo"; "gist"] = Ext.orderedScopesOf ["gist"; "repo"]
   <-> ["repo"; "gist"] ≡ₚ ["gist"; "repo"]).
Proof.
  split; [reflexivity|].
  apply (proj2 (canonical_key_equivalence ["repo"; "gist"] ["gist"; "repo"])).
  reflexivity.
Defined.

(** ** The service of the host *)

Section ServiceFacts.

Import Service.

(** Two services with the same fields are the same service. *)
Lemma ServiceState_eq (s t : ServiceState) :
  _placeholderMenuItem s = _placeholderMenuItem t ->
  _noAccountsMenuItem s = _noAccountsMenuItem t ->
  _signInRequestItems s = _signInRequestItems t ->
  _badgeDisposable s = _badgeDisposable t ->
  _authenticationProviders s = _authenticationProviders t ->
  log s = log t ->
  s = t.
Proof. destruct s, t; simpl; congruence. Qed.

Lemma emit_nil (st : ServiceState) : emit [] st = st.
Proof. apply ServiceState_eq; simpl; auto using app_nil_r. Qed.

Lemma emit_emit (a b : list Effect) (st : ServiceState) :
  emit b (emit a st) = emit (a ++ b) st.
Proof. apply ServiceState_eq; simpl; auto using app_assoc. Qed.

(** [updateAccountsMenuItem] touches the menu item of the empty
    accounts menu and nothing else. *)
Lemma updateAccountsMenuItem_spec (st : ServiceState) :
  updateAccountsMenuItem st = st \/
  exists item,
    _noAccountsMenuItem st = Some item /\
    updateAccountsMenuItem st
    = set_noAccountsMenuItem None (emit [Dispose item] st).
Proof.
  unfold updateAccountsMenuItem.
  destruct (_noAccountsMenuItem st) as [item|]; [|auto].
  destruct (map_fold _ _ _); [|auto].
  right. exists item. auto.
Qed.

Lemma updateAccountsMenuItem_signInRequestItems (st : ServiceState) :
  _signInRequestItems (updateAccountsMenuItem st) = _signInRequestItems st.
Proof.
  destruct (updateAccountsMenuItem_spec st) as [->|(item & _ & ->)];
    reflexivity.
Qed.

Lemma updateAccountsMenuItem_authenticationProviders (st : ServiceState) :
  _authenticationProviders (updateAccountsMenuItem st)
  = _authenticationProviders st.
Proof.
  destruct (updateAccountsMenuItem_spec st) as [->|(item & _ & ->)];
    reflexivity.
Qed.

Lemma updateAccountsMenuItem_badgeDisposable (st : ServiceState) :
  _badgeDisposable (updateAccountsMenuItem st) = _badgeDisposable st.
Proof.
  destruct (updateAccountsMenuItem_spec st) as [->|(item & _ & ->)];
    reflexivity.
Qed.

(** The service stores whatever provider it is handed. *)
Lemma registerAuthenticationProvider_stores
      (st : ServiceState) (id : string) (provider : Provider.t) :
  _authenticationProviders (registerAuthenticationProvider st id provider)
  = <[id := provider]> (_authenticationProviders st).
Proof.
  unfold registerAuthenticationProvider.
  rewrite updateAccountsMenuItem_authenticationProviders.
  simpl. destruct (_placeholderMenuItem st); reflexivity.
Qed.

Lemma requestNewSession_state (st : ServiceState) (providerId : string)
      (scopes : list string) (extensionId extensionName : string) :
  fst (requestNewSession st providerId scopes extensionId extensionName)
  = st.
Proof.
  unfold requestNewSession.
  destruct (_authenticationProviders st !! providerId); [|reflexivity].
  match goal with |- context [if ?b then _ else _] => destruct b end;
    reflexivity.
Qed.

Lemma requestNewSession_registered (st : ServiceState) (providerId : string)
      (provider : Provider.t)
      (scopes : list string) (extensionId extensionName : string) :
  _authenticationProviders st !! providerId = Some provider ->
  requestNewSession st providerId scopes extensionId extensionName
  = (st, sort scopes).
Proof.
  intros H. unfold requestNewSession. rewrite H.
  match goal with |- context [if ?b then _ else _] => destruct b end;
    reflexivity.
Qed.

End ServiceFacts.

(** C10.  [requestNewSession] for a provider id that is not registered
    returns (the function has no [throw]) and changes nothing: the service
    is as before, all its fields with it, and the caller's [scopes] array
    is not even sorted. *)
Theorem requestNewSession_unknown_provider
        (st : Service.ServiceState) (providerId : string)
        (scopes : list string) (extensionId extensionName : string) :
  Service._authenticationProviders st !! providerId = None ->
  Service.requestNewSession st providerId scopes extensionId extensionName
  = (st, scopes).
Proof.
  intros H. unfold Service.requestNewSession. rewrite H. reflexivity.
Qed.

Lemma requestNewSession_unknown_provider_witness :
  Service._authenticationProviders Sample.busy !! "github" = None /\
  Service.requestNewSession Sample.busy "github" ["user"; "repo"]
                            "ext.foo" "Foo"
  = (Sample.busy, ["user"; "repo"]).
Proof.
  assert (H : Service._authenticationProviders Sample.busy !! "github" = None)
    by reflexivity.
  split; [exact H|].
  exact (requestNewSession_unknown_provider
           Sample.busy "github" ["user"; "repo"] "ext.foo" "Foo" H).
Defined.

(** C2, as the claim has it, fails: with [acme] registered and no request
    pending, [requestNewSession] files no request for the provider and the
    scope key. *)
Lemma requestNewSession_files_nothing :
  let st := Sample.fresh in
  let st' := fst (Service.requestNewSession st "acme" ["repo"]
                                            "ext.foo" "Foo") in
  Service._authenticationProviders st !! "acme" = Some Sample.acme /\
  pendingRequest st "acme" (Service.scopesListOf ["repo"]) = None /\
  pendingRequest st' "acme" (Service.scopesListOf ["repo"]) = None /\
  Service._signInRequestItems st' = ∅.
Proof. repeat split. Qed.

(** C2, amended.  For a registered provider for which no request
    object is filed (none ever is on a service built by calls),
    [requestNewSession] leaves the service as it was, the sign-in requests
    with it: no request is filed and no requester added (the code that
    would do so is commented out); it sorts the caller's [scopes].
    Calling it again with the same arguments changes nothing either, so
    there is no second entry and no duplicate requester id. *)
Theorem requestNewSession_registered_changes_nothing
        (st : Service.ServiceState) (providerId : string)
        (provider : Service.Provider.t)
        (scopes : list string) (extensionId extensionName : string) :
  Service._authenticationProviders st !! providerId = Some provider ->
  Service._signInRequestItems st !! providerId = None ->
  let once :=
    Service.requestNewSession st providerId scopes extensionId extensionName in
  let twice :=
    Service.requestNewSession (fst once) providerId (snd once)
                              extensionId extensionName in
  once = (st, sort scopes) /\
  twice = (st, sort scopes) /\
  (forall key, pendingRequest (fst twice) providerId key
               = pendingRequest st providerId key).
Proof.
  intros H _ once twice.
  assert (H1 : once = (st, sort scopes))
    by (eapply requestNewSession_registered; eassumption).
  assert (H2 : twice = (st, sort scopes)).
  { subst twice. rewrite H1. simpl.
    erewrite requestNewSession_registered by eassumption.
    rewrite sort_idempotent. reflexivity. }
  split; [exact H1|]. split; [exact H2|].
  intros key. rewrite H2. reflexivity.
Qed.

Lemma requestNewSession_registered_changes_nothing_witness :
  Service._authenticationProviders Sample.fresh !! "acme" = Some Sample.acme /\
  Service._signInRequestItems Sample.fresh !! "acme" = None /\
  Service.requestNewSession Sample.fresh "acme" ["user"; "gist"]
                            "ext.baz" "Baz"
  = (Sample.fresh, ["gist"; "user"]).
Proof.
  assert (H : Service._authenticationProviders Sample.fresh !! "acme"
              = Some Sample.acme) by reflexivity.
  assert (H' : Service._signInRequestItems Sample.fresh !! "acme" = None)
    by reflexivity.
  split; [exact H|]. split; [exact H'|].
  exact (proj1 (requestNewSession_registered_changes_nothing
                  Sample.fresh "acme" Sample.acme ["user"; "gist"]
                  "ext.baz" "Baz" H H')).
Defined.


(** ** Registering a provider twice *)

(** In the plugin host a second provider under a registered id is
    refused, and the registry and the log of calls stay as they were. *)
Lemma ext_register_duplicate
      (st : Ext.ExtState) (provider original : Ext.Provider.t) :
  Ext.authenticationProviders st !! Ext.Provider.id provider = Some original ->
  Ext.registerAuthenticationProvider provider st
  = (Thrown (Ext.alreadyRegistered (Ext.Provider.id provider)), st).
Proof.
  intros H. unfold Ext.registerAuthenticationProvider, Ext.bind,
    Ext.getProviders. rewrite H. reflexivity.
Qed.

(** A provider under a fresh id is stored, subscribed to, and announced
    to the host, which fires the registration event on its side. *)
Lemma ext_register_fresh (st : Ext.ExtState) (provider : Ext.Provider.t) :
  Ext.authenticationProviders st !! Ext.Provider.id provider = None ->
  Ext.registerAuthenticationProvider provider st
  = (Returned tt,
     {| Ext.authenticationProviders :=
          <[Ext.Provider.id provider := provider]>
            (Ext.authenticationProviders st);
        Ext.calls :=
          Ext.calls st ++
          [Ext.Provider_onDidChangeSessions (Ext.Provider.id provider);
           Ext.Main_registerAuthenticationProvider
             (Ext.Provider.id provider) (Ext.Provider.displayName provider)
             (Ext.Provider.supportsMultipleAccounts provider)] |}).
Proof.
  intros H. unfold Ext.registerAuthenticationProvider, Ext.bind,
    Ext.getProviders. rewrite H.
  unfold Ext.setProviders, Ext.await. simpl.
  rewrite <- app_assoc. reflexivity.
Qed.

(** C1.  The service of the host does not refuse a second provider under
    a registered id: with [acme] registered under "acme", registering
    [acmeAgain] under "acme" raises nothing, stores [acmeAgain] in the
    place of [acme] and fires a second registration event.  The plugin
    host does refuse it ([ext_register_duplicate]). *)
Theorem service_register_duplicate_replaces :
  let st := Sample.fresh in
  let st' := Service.registerAuthenticationProvider st "acme"
                                                    Sample.acmeAgain in
  Service._authenticationProviders st !! "acme" = Some Sample.acme /\
  Service._authenticationProviders st' !! "acme" = Some Sample.acmeAgain /\
  Service.Provider.displayName Sample.acmeAgain
  <> Service.Provider.displayName Sample.acme /\
  Service.log st'
  = [Service.DidRegisterAuthenticationProvider "acme";
     Service.DidRegisterAuthenticationProvider "acme"] /\
  Ext.registerAuthenticationProvider Sample.acmeExtAgain Sample.withAcme
  = (Thrown (Ext.alreadyRegistered "acme"), Sample.withAcme).
Proof.
  repeat split. discriminate.
Qed.

(** ** Operations on a provider that is not registered *)

Section UnknownProvider.

Lemma ext_getSession_remote
      (main : Ext.AuthenticationMain) (requestingExtension : Ext.PluginModel)
      (providerId : string) (scopes : list string)
      (options : Ext.AuthenticationGetSessionOptions) (st : Ext.ExtState) :
  Ext.authenticationProviders st !! providerId = None ->
  let extensionId := toLowerCase (Ext.model_id requestingExtension) in
  let extensionName := orElse (Ext.model_displayName requestingExtension)
                              (Ext.model_name requestingExtension) in
  Ext.getSession main requestingExtension providerId scopes options st
  = (Ext.main_getSession main providerId scopes extensionId extensionName
                         options,
     {| Ext.authenticationProviders := Ext.authenticationProviders st;
        Ext.calls :=
          Ext.calls st ++
          [Ext.Main_getSession providerId scopes extensionId extensionName
                               options] |}).
Proof.
  intros H. unfold Ext.getSession, Ext.bind, Ext.getProviders.
  rewrite H. reflexivity.
Qed.

End UnknownProvider.

(** C7, as the claim has it, fails for the lookup of [getSession]: asked
    for "github", which no plugin of this host has registered, it raises
    nothing, passes the request through the proxy and returns the session
    the host answers with. *)
Lemma getSession_unknown_provider_is_forwarded :
  let options := {| Ext.createIfNone := Some true;
                    Ext.clearSessionPreference := None |} in
  Ext.authenticationProviders Sample.withAcme !! "github" = None /\
  Ext.getSession (Sample.main true) Sample.foo "github" ["repo"] options
                 Sample.withAcme
  = (Returned (Some Sample.repoSession),
     {| Ext.authenticationProviders :=
          Ext.authenticationProviders Sample.withAcme;
        Ext.calls := [Ext.Main_getSession "github" ["repo"] "ext.foo" "Foo"
                                          options] |}).
Proof. split; reflexivity. Qed.

(** C7, amended.  When no provider is registered under the id, the
    operations [getSessions], [getDisplayName], [supportsMultipleAccounts],
    [login], [logout] and [signOutOfAccount] of the service of the host
    throw the error that no such provider is registered; [getSession] of
    the plugin host, finding no provider of that id in its own registry,
    throws nothing itself: it forwards the request through the proxy, once
    and with the scopes as given, and ends as that call does. *)
Theorem unknown_provider
        (st : Service.ServiceState) (ext : Ext.ExtState) (id : string)
        (main : Ext.AuthenticationMain) (requestingExtension : Ext.PluginModel)
        (scopes : list string) (options : Ext.AuthenticationGetSessionOptions)
        (sessionId accountName : string) :
  Service._authenticationProviders st !! id = None ->
  Ext.authenticationProviders ext !! id = None ->
  Service.getSessions st id = Thrown (Service.noProviderRegistered id) /\
  Service.getDisplayName st id = Thrown (Service.noProviderRegistered id) /\
  Service.supportsMultipleAccounts st id
  = Thrown (Service.noProviderRegistered id) /\
  Service.login st id scopes = Thrown (Service.noProviderRegistered id) /\
  Service.logout st id sessionId = Thrown (Service.noProviderRegistered id) /\
  Service.signOutOfAccount st id accountName
  = Thrown (Service.noProviderRegistered id) /\
  Ext.getSession main requestingExtension id scopes options ext
  = (Ext.main_getSession main id scopes
       (toLowerCase (Ext.model_id requestingExtension))
       (orElse (Ext.model_displayName requestingExtension)
               (Ext.model_name requestingExtension))
       options,
     {| Ext.authenticationProviders := Ext.authenticationProviders ext;
        Ext.calls :=
          Ext.calls ext ++
          [Ext.Main_getSession id scopes
             (toLowerCase (Ext.model_id requestingExtension))
             (orElse (Ext.model_displayName requestingExtension)
                     (Ext.model_name requestingExtension))
             options] |}).
Proof.
  intros Hst Hext.
  unfold Service.getSessions, Service.getDisplayName,
    Service.supportsMultipleAccounts, Service.login, Service.logout,
    Service.signOutOfAccount.
  rewrite Hst. repeat (split; [reflexivity|]).
  apply ext_getSession_remote, Hext.
Qed.

Lemma unknown_provider_witness :
  Service._authenticationProviders Sample.busy !! "github" = None /\
  Ext.authenticationProviders Sample.withAcme !! "github" = None /\
  Service.getDisplayName Sample.busy "github"
  = Thrown (mkError
      "No authentication provider 'github' is currently registered.").
Proof.
  assert (H1 : Service._authenticationProviders Sample.busy !! "github" = None)
    by reflexivity.
  assert (H2 : Ext.authenticationProviders Sample.withAcme !! "github" = None)
    by reflexivity.
  split; [exact H1|]. split; [exact H2|].
  exact (proj1 (proj2 (unknown_provider
                         Sample.busy Sample.withAcme "github"
                         (Sample.main true) Sample.foo ["repo"]
                         {| Ext.createIfNone := None;
                            Ext.clearSessionPreference := None |}
                         "s1" "octocat" H1 H2))).
Defined.

(** ** [getSession] on a provider of the plugin host *)

Section LocalProvider.

Variable main : Ext.AuthenticationMain.
Variable requestingExtension : Ext.PluginModel.
Variable providerId : string.
Variable scopes : list string.
Variable options : Ext.AuthenticationGetSessionOptions.
Variable st : Ext.ExtState.
Variable provider : Ext.Provider.t.
Variable all : list AuthenticationSession.

Hypothesis registered :
  Ext.authenticationProviders st !! providerId = Some provider.
Hypothesis reported : Ext.Provider.getSessions provider = Returned all.

Let extensionId := toLowerCase (Ext.model_id requestingExtension).
Let extensionName := orElse (Ext.model_displayName requestingExtension)
                            (Ext.model_name requestingExtension).

Let logged (l : list Ext.Call) : Ext.ExtState :=
  {| Ext.authenticationProviders := Ext.authenticationProviders st;
     Ext.calls := Ext.calls st ++ Ext.Provider_getSessions providerId :: l |}.

Lemma matchingSessions_none :
  Forall (fun s => Ext.orderedScopesOf (session_scopes s)
                   <> Ext.orderedScopesOf scopes) all ->
  matchingSessions scopes all = [].
Proof.
  unfold matchingSessions. clear reported.
  induction 1 as [|s rest Hs _ IH]; [reflexivity|].
  simpl. rewrite IH.
  unfold Ext.hasOrderedScopes at 1. simpl.
  apply String.eqb_neq in Hs. unfold Ext.orderedScopesOf in Hs at 1.
  rewrite Hs. reflexivity.
Qed.

(** No session matches and none is to be created: the request is
    forwarded, and the end is that of the forwarding call. *)
Lemma getSession_no_match_no_create :
  matchingSessions scopes all = [] ->
  truthy (Ext.createIfNone options) = false ->
  Ext.getSession main requestingExtension providerId scopes options st
  = (match Ext.main_requestNewSession main providerId (sort scopes)
             extensionId extensionName with
     | Returned _ => Returned None
     | Thrown e => Thrown e
     end,
     logged [Ext.Main_requestNewSession providerId (sort scopes)
                                        extensionId extensionName]).
Proof.
  intros Hnone Hcreate.
  unfold Ext.getSession, Ext.bind, Ext.getProviders, Ext.await.
  rewrite registered, reported.
  unfold matchingSessions, Ext.orderedScopesOf in Hnone. rewrite Hnone.
  rewrite Hcreate. fold extensionId extensionName.
  unfold logged. simpl.
  destruct (Ext.main_requestNewSession _ _ _ _ _);
    rewrite <- app_assoc; reflexivity.
Qed.

(** No session matches, one is to be created, the user declines. *)
Lemma getSession_login_declined :
  matchingSessions scopes all = [] ->
  truthy (Ext.createIfNone options) = true ->
  Ext.main_loginPrompt main (Ext.Provider.displayName provider) extensionName
  = Returned false ->
  Ext.getSession main requestingExtension providerId scopes options st
  = (Thrown Ext.userDidNotConsent,
     logged [Ext.Main_loginPrompt (Ext.Provider.displayName provider)
                                  extensionName]).
Proof.
  intros Hnone Hcreate Hprompt.
  unfold Ext.getSession, Ext.bind, Ext.getProviders, Ext.await.
  rewrite registered, reported.
  unfold matchingSessions, Ext.orderedScopesOf in Hnone. rewrite Hnone.
  rewrite Hcreate. fold extensionId extensionName. rewrite Hprompt.
  unfold logged. simpl. rewrite <- app_assoc. reflexivity.
Qed.

(** A session of a single-account provider matches, the user declines
    its reuse. *)
Lemma getSession_reuse_declined (session : AuthenticationSession)
      (rest : list AuthenticationSession) :
  matchingSessions scopes all = session :: rest ->
  Ext.Provider.supportsMultipleAccounts provider = false ->
  Ext.main_getSessionsPrompt main providerId
    (account_displayName (session_account session))
    (Ext.Provider.displayName provider) extensionId extensionName
  = Returned false ->
  Ext.getSession main requestingExtension providerId scopes options st
  = (Thrown Ext.userDidNotConsent,
     logged [Ext.Main_getSessionsPrompt providerId
               (account_displayName (session_account session))
               (Ext.Provider.displayName provider)
               extensionId extensionName]).
Proof.
  intros Hsome Hsingle Hprompt.
  unfold Ext.getSession, Ext.bind, Ext.getProviders, Ext.await.
  rewrite registered, reported.
  unfold matchingSessions, Ext.orderedScopesOf in Hsome. rewrite Hsome.
  rewrite Hsingle. fold extensionId extensionName. simpl. rewrite Hprompt.
  unfold logged. simpl. rewrite <- app_assoc. reflexivity.
Qed.

Lemma logins_logged_prompt (c : Ext.Call) :
  isLogin c = false -> logins (Ext.calls (logged [c])) = logins (Ext.calls st).
Proof.
  intros Hc. unfold logins, logged. simpl.
  rewrite List.filter_app. simpl. rewrite Hc. apply app_nil_r.
Qed.

End LocalProvider.

(** C5, as the claim has it, fails: [acmeExt] is registered in the plugin
    host, none of its sessions has the scope gist, [createIfNone] is not
    set, and the call through the proxy that forwards the request rejects;
    [getSession] then rejects with that error, where the claim has it
    return [undefined] without an error. *)
Lemma getSession_forwarding_rejected :
  let options := {| Ext.createIfNone := None;
                    Ext.clearSessionPreference := None |} in
  Ext.authenticationProviders Sample.withAcme !! "acme"
  = Some Sample.acmeExt /\
  Ext.Provider.getSessions Sample.acmeExt = Returned [Sample.repoSession] /\
  Ext.orderedScopesOf (session_scopes Sample.repoSession)
  <> Ext.orderedScopesOf ["gist"] /\
  truthy (Ext.createIfNone options) = false /\
  Ext.getSession Sample.mainOffline Sample.foo "acme" ["gist"] options
                 Sample.withAcme
  = (Thrown (mkError "rpc failed"),
     {| Ext.authenticationProviders :=
          Ext.authenticationProviders Sample.withAcme;
        Ext.calls :=
          [Ext.Provider_getSessions "acme";
           Ext.Main_requestNewSession "acme" ["gist"] "ext.foo" "Foo"] |}).
Proof.
  repeat split. intros H. vm_compute in H. discriminate.
Qed.

(** C5, amended.  [getSession] on a provider of the plugin host none of
    whose sessions has the canonical scopes asked for, with [createIfNone]
    not set: the request is forwarded to the host exactly once (for the
    provider, the scopes, which the call has sorted in place, and the
    requesting extension), after the one call of [getSessions], and
    [getSession] throws nothing of its own: it ends as the forwarding call
    does, with [undefined] when that call resolves and with its error when
    it rejects. *)
Theorem getSession_forwards_request
        (main : Ext.AuthenticationMain) (requestingExtension : Ext.PluginModel)
        (providerId : string) (scopes : list string)
        (options : Ext.AuthenticationGetSessionOptions) (st : Ext.ExtState)
        (provider : Ext.Provider.t) (all : list AuthenticationSession) :
  let extensionId := toLowerCase (Ext.model_id requestingExtension) in
  let extensionName := orElse (Ext.model_displayName requestingExtension)
                              (Ext.model_name requestingExtension) in
  Ext.authenticationProviders st !! providerId = Some provider ->
  Ext.Provider.getSessions provider = Returned all ->
  Forall (fun s => Ext.orderedScopesOf (session_scopes s)
                   <> Ext.orderedScopesOf scopes) all ->
  truthy (Ext.createIfNone options) = false ->
  Ext.getSession main requestingExtension providerId scopes options st
  = (match Ext.main_requestNewSession main providerId (sort scopes)
             extensionId extensionName with
     | Returned _ => Returned None
     | Thrown e => Thrown e
     end,
     {| Ext.authenticationProviders := Ext.authenticationProviders st;
        Ext.calls :=
          Ext.calls st ++
          [Ext.Provider_getSessions providerId;
           Ext.Main_requestNewSession providerId (sort scopes)
                                      extensionId extensionName] |}).
Proof.
  intros extensionId extensionName Hreg Hall Hnone Hcreate.
  erewrite getSession_no_match_no_create; try eassumption.
  - reflexivity.
  - eapply matchingSessions_none; eassumption.
Qed.

Lemma getSession_forwards_request_witness :
  Ext.getSession (Sample.main true) Sample.foo "acme" ["user"; "gist"]
                 {| Ext.createIfNone := None;
                    Ext.clearSessionPreference := None |}
                 Sample.withAcme
  = (Returned None,
     {| Ext.authenticationProviders :=
          Ext.authenticationProviders Sample.withAcme;
        Ext.calls :=
          [Ext.Provider_getSessions "acme";
           Ext.Main_requestNewSession "acme" ["gist"; "user"]
                                      "ext.foo" "Foo"] |}).
Proof.
  apply (getSession_forwards_request
           (Sample.main true) Sample.foo "acme" ["user"; "gist"]
           {| Ext.createIfNone := None; Ext.clearSessionPreference := None |}
           Sample.withAcme Sample.acmeExt [Sample.repoSession]).
  - reflexivity.
  - reflexivity.
  - repeat constructor. intros H. vm_compute in H. discriminate.
  - reflexivity.
Defined.

(** C6.  [getSession] on a provider of the plugin host, the user
    declining the prompt: be it the prompt to reuse the matching session
    of a provider without multiple accounts, be it the login prompt when
    no session matches and [createIfNone] is set, the call throws "User
    did not consent to login." and the log holds no call of [login] it had
    not held before. *)
Theorem getSession_consent_denied
        (main : Ext.AuthenticationMain) (requestingExtension : Ext.PluginModel)
        (providerId : string) (scopes : list string)
        (options : Ext.AuthenticationGetSessionOptions) (st : Ext.ExtState)
        (provider : Ext.Provider.t) (all : list AuthenticationSession) :
  let extensionId := toLowerCase (Ext.model_id requestingExtension) in
  let extensionName := orElse (Ext.model_displayName requestingExtension)
                              (Ext.model_name requestingExtension) in
  let result :=
    Ext.getSession main requestingExtension providerId scopes options st in
  Ext.authenticationProviders st !! providerId = Some provider ->
  Ext.Provider.getSessions provider = Returned all ->
  (exists session rest,
      matchingSessions scopes all = session :: rest /\
      Ext.Provider.supportsMultipleAccounts provider = false /\
      Ext.main_getSessionsPrompt main providerId
        (account_displayName (session_account session))
        (Ext.Provider.displayName provider) extensionId extensionName
      = Returned false)
  \/ (matchingSessions scopes all = [] /\
      truthy (Ext.createIfNone options) = true /\
      Ext.main_loginPrompt main (Ext.Provider.displayName provider)
                           extensionName
      = Returned false) ->
  fst result = Thrown Ext.userDidNotConsent /\
  logins (Ext.calls (snd result)) = logins (Ext.calls st) /\
  length (Ext.calls (snd result)) = length (Ext.calls st) + 2 /\
  Ext.authenticationProviders (snd result) = Ext.authenticationProviders st.
Proof.
  intros extensionId extensionName result Hreg Hall Hdeclined.
  subst result.
  destruct Hdeclined as [(session & rest & Hsome & Hsingle & Hprompt)
                        | (Hnone & Hcreate & Hprompt)].
  - erewrite getSession_reuse_declined; try eassumption. simpl.
    split; [reflexivity|]. split; [|split; [|reflexivity]].
    + unfold logins. rewrite List.filter_app. simpl. apply app_nil_r.
    + rewrite length_app. reflexivity.
  - erewrite getSession_login_declined; try eassumption. simpl.
    split; [reflexivity|]. split; [|split; [|reflexivity]].
    + unfold logins. rewrite List.filter_app. simpl. apply app_nil_r.
    + rewrite length_app. reflexivity.
Qed.

Lemma getSession_consent_denied_witness :
  (Ext.getSession (Sample.main false) Sample.foo "acme" ["repo"]
                  {| Ext.createIfNone := Some true;
                     Ext.clearSessionPreference := None |}
                  Sample.withAcme).1
  = Thrown (mkError "User did not consent to login.") /\
  (Ext.getSession (Sample.main false) Sample.foo "acme" ["gist"]
                  {| Ext.createIfNone := Some true;
                     Ext.clearSessionPreference := None |}
                  Sample.withAcme).1
  = Thrown (mkError "User did not consent to login.").
Proof.
  split.
  - apply (getSession_consent_denied
             (Sample.main false) Sample.foo "acme" ["repo"]
             {| Ext.createIfNone := Some true;
                Ext.clearSessionPreference := None |}
             Sample.withAcme Sample.acmeExt [Sample.repoSession]).
    + reflexivity.
    + reflexivity.
    + left. exists Sample.repoSession, []. repeat split.
  - apply (getSession_consent_denied
             (Sample.main false) Sample.foo "acme" ["gist"]
             {| Ext.createIfNone := Some true;
                Ext.clearSessionPreference := None |}
             Sample.withAcme Sample.acmeExt [Sample.repoSession]).
    + reflexivity.
    + reflexivity.
    + right. repeat split.
Defined.

(** ** Reconciling the sign-in requests with the sessions of a provider *)

Section Reconcile.

Import Service.

Lemma getRequest_app_fresh (key : string) (pre info : SessionRequestInfo) :
  key ∉ keys pre -> getRequest key (pre ++ info) = getRequest key info.
Proof.
  induction pre as [|[k r] pre IH]; intros Hfresh; [reflexivity|].
  simpl in *. apply not_elem_of_cons in Hfresh as [Hne Hfresh].
  destruct (String.eqb_spec k key) as [->|_]; [congruence|].
  apply IH, Hfresh.
Qed.

Lemma getRequest_head (key : string) (r : SessionRequest)
      (info : SessionRequestInfo) :
  getRequest key ((key, r) :: info) = Some r.
Proof. simpl. rewrite String.eqb_refl. reflexivity. Qed.

Lemma deleteRequest_fresh (key : string) (info : SessionRequestInfo) :
  key ∉ keys info -> deleteRequest key info = info.
Proof.
  induction info as [|[k r] info IH]; intros Hfresh; [reflexivity|].
  simpl in *. apply not_elem_of_cons in Hfresh as [Hne Hfresh].
  destruct (String.eqb_spec k key) as [->|_]; [congruence|].
  rewrite IH by assumption. reflexivity.
Qed.

Lemma deleteRequest_app (key : string) (a b : SessionRequestInfo) :
  deleteRequest key (a ++ b) = deleteRequest key a ++ deleteRequest key b.
Proof.
  induction a as [|[k r] a IH]; [reflexivity|].
  simpl. destruct (String.eqb k key); rewrite IH; reflexivity.
Qed.

Lemma keys_app (a b : SessionRequestInfo) : keys (a ++ b) = keys a ++ keys b.
Proof. apply map_app. Qed.

(** Keys being distinct, the entry met by the loop is the one its key
    names, and deleting the key takes out that entry alone. *)
Lemma NoDup_keys_middle (pre rest : SessionRequestInfo)
      (key : string) (r : SessionRequest) :
  NoDup (keys (pre ++ (key, r) :: rest)) ->
  getRequest key (pre ++ (key, r) :: rest) = Some r /\
  deleteRequest key (pre ++ (key, r) :: rest) = pre ++ rest /\
  NoDup (keys (pre ++ rest)).
Proof.
  rewrite !keys_app. simpl. intros Hnd.
  apply NoDup_app in Hnd as (Hpre & Hdisj & Hrest).
  apply NoDup_cons in Hrest as [Hkey Hrest].
  assert (Hfresh : key ∉ keys pre).
  { intros Hin. apply (Hdisj _ Hin). left. }
  split; [|split].
  - rewrite getRequest_app_fresh by assumption. apply getRequest_head.
  - rewrite deleteRequest_app, deleteRequest_fresh by assumption.
    simpl. rewrite String.eqb_refl, deleteRequest_fresh by assumption.
    reflexivity.
  - apply NoDup_app. split; [assumption|]. split; [|assumption].
    intros x Hx Hx'. apply (Hdisj _ Hx). right. exact Hx'.
Qed.

Lemma pendingStill_all (sessions : list AuthenticationSession)
      (info : SessionRequestInfo) :
  existsb (completes sessions) info = false ->
  pendingStill sessions info = info.
Proof.
  induction info as [|x info IH]; [reflexivity|].
  simpl. intros H. apply orb_false_iff in H as [Hx H].
  rewrite Hx. simpl. rewrite IH by assumption. reflexivity.
Qed.

Lemma completed_none (sessions : list AuthenticationSession)
      (info : SessionRequestInfo) :
  existsb (completes sessions) info = false -> completed sessions info = [].
Proof.
  induction info as [|x info IH]; [reflexivity|].
  simpl. intros H. apply orb_false_iff in H as [Hx H].
  rewrite Hx. apply IH, H.
Qed.

Lemma filed_filed (providerId : string) (a b : SessionRequestInfo)
      (m : gmap string SessionRequestInfo) :
  filed providerId a (filed providerId b m) = filed providerId a m.
Proof.
  unfold filed.
  destruct (Nat.eqb (length (keys a)) 0), (Nat.eqb (length (keys b)) 0).
  - apply delete_delete_eq.
  - apply delete_insert_eq.
  - apply insert_delete_eq.
  - apply insert_insert_eq.
Qed.

Lemma handlesOf_cons (request : string * SessionRequest)
      (info : SessionRequestInfo) :
  handlesOf (request :: info) = disposables (snd request) ++ handlesOf info.
Proof. reflexivity. Qed.

End Reconcile.

Section ReconcileLoop.

Import Service.

Variable providerId : string.
Variable sessions : list AuthenticationSession.

Lemma completeRequest_skip (st : ServiceState) (info : SessionRequestInfo)
      (changed : bool) (key : string) :
  existsb (sessionCompletes key) sessions = false ->
  completeRequest providerId sessions (st, info, changed) key
  = (st, info, changed).
Proof. intros H. unfold completeRequest. rewrite H. reflexivity. Qed.

Lemma completeRequest_hit (st : ServiceState) (info : SessionRequestInfo)
      (changed : bool) (key : string) (r : SessionRequest) :
  existsb (sessionCompletes key) sessions = true ->
  getRequest key info = Some r ->
  completeRequest providerId sessions (st, info, changed) key
  = (set_signInRequestItems
       (filed providerId (deleteRequest key info) (_signInRequestItems st))
       (emit (map Dispose (disposables r)) st),
     deleteRequest key info, true).
Proof.
  intros H Hr. unfold completeRequest, filed. rewrite H, Hr.
  destruct (Nat.eqb _ 0); reflexivity.
Qed.

Lemma pendingStill_cons (x : string * SessionRequest)
      (info : SessionRequestInfo) :
  pendingStill sessions (x :: info)
  = if completes sessions x then pendingStill sessions info
    else x :: pendingStill sessions info.
Proof. unfold pendingStill. simpl. destruct (completes sessions x); auto. Qed.

Lemma completed_cons (x : string * SessionRequest)
      (info : SessionRequestInfo) :
  completed sessions (x :: info)
  = if completes sessions x then x :: completed sessions info
    else completed sessions info.
Proof. reflexivity. Qed.

(** The loop over the keys of the object, started on the entries still
    to visit, [pre] being the entries visited and kept. *)
Lemma loop_spec (entries : SessionRequestInfo) :
  forall (pre : SessionRequestInfo) (st : ServiceState) (changed : bool),
    NoDup (keys (pre ++ entries)) ->
    exists st',
      fold_left (completeRequest providerId sessions) (keys entries)
                (st, pre ++ entries, changed)
      = (st', pre ++ pendingStill sessions entries,
         changed || existsb (completes sessions) entries) /\
      _placeholderMenuItem st' = _placeholderMenuItem st /\
      _noAccountsMenuItem st' = _noAccountsMenuItem st /\
      _badgeDisposable st' = _badgeDisposable st /\
      _authenticationProviders st' = _authenticationProviders st /\
      log st' = log st ++ map Dispose (handlesOf (completed sessions entries)) /\
      _signInRequestItems st'
      = if existsb (completes sessions) entries
        then filed providerId (pre ++ pendingStill sessions entries)
                   (_signInRequestItems st)
        else _signInRequestItems st.
Proof.
  induction entries as [|[key r] rest IH]; intros pre st changed Hnd.
  - exists st. simpl. rewrite orb_false_r, !app_nil_r. repeat split.
  - change (keys ((key, r) :: rest)) with (key :: keys rest).
    cbn [fold_left].
    rewrite pendingStill_cons, completed_cons. cbn [existsb].
    destruct (existsb (sessionCompletes key) sessions) eqn:Hkey.
    + assert (Hhit : completes sessions (key, r) = true) by exact Hkey.
      rewrite Hhit.
      destruct (NoDup_keys_middle _ _ _ _ Hnd) as (Hget & Hdel & Hnd').
      rewrite (completeRequest_hit _ _ _ _ r) by assumption.
      rewrite Hdel.
      match goal with
      | |- context [fold_left _ _ (?s, _, _)] =>
          destruct (IH pre s true Hnd')
            as (st' & Hfold & Hp & Hn & Hb & Ha & Hlog & Hmap)
      end.
      exists st'.
      split; [rewrite Hfold, orb_true_r; reflexivity|].
      repeat (split; [assumption|]).
      split.
      * rewrite Hlog, handlesOf_cons, map_app, app_assoc. reflexivity.
      * rewrite Hmap. cbn [orb].
        destruct (existsb (completes sessions) rest) eqn:Hrest.
        -- apply filed_filed.
        -- rewrite (pendingStill_all sessions rest Hrest). reflexivity.
    + assert (Hskip : completes sessions (key, r) = false) by exact Hkey.
      rewrite Hskip.
      rewrite completeRequest_skip by assumption.
      replace (pre ++ (key, r) :: rest) with ((pre ++ [(key, r)]) ++ rest)
        in * by (rewrite <- app_assoc; reflexivity).
      destruct (IH (pre ++ [(key, r)]) st changed Hnd)
        as (st' & Hfold & Hp & Hn & Hb & Ha & Hlog & Hmap).
      exists st'. cbn [orb].
      replace (pre ++ (key, r) :: pendingStill sessions rest)
        with ((pre ++ [(key, r)]) ++ pendingStill sessions rest)
        by (rewrite <- app_assoc; reflexivity).
      repeat (split; [assumption|]). assumption.
Qed.

End ReconcileLoop.

Section ReconcileProvider.

Import Service.

Lemma getRequest_pendingStill (sessions : list AuthenticationSession)
      (key : string) (info : SessionRequestInfo) :
  getRequest key (pendingStill sessions info)
  = if existsb (sessionCompletes key) sessions then None
    else getRequest key info.
Proof.
  induction info as [|[k r] info IH].
  - simpl. destruct (existsb _ sessions); reflexivity.
  - rewrite pendingStill_cons. unfold completes at 1. cbn [fst getRequest].
    destruct (String.eqb_spec k key) as [->|Hne].
    + destruct (existsb (sessionCompletes key) sessions) eqn:Hkey.
      * rewrite IH. reflexivity.
      * cbn [getRequest]. rewrite String.eqb_refl. reflexivity.
    + destruct (existsb (sessionCompletes k) sessions).
      * exact IH.
      * cbn [getRequest]. apply String.eqb_neq in Hne. rewrite Hne. exact IH.
Qed.

Lemma filed_lookup (providerId : string) (info : SessionRequestInfo)
      (m : gmap string SessionRequestInfo) (key : string) :
  match filed providerId info m !! providerId with
  | Some info' => getRequest key info'
  | None => None
  end = getRequest key info.
Proof.
  unfold filed. destruct info as [|x info]; simpl.
  - rewrite lookup_delete_eq. reflexivity.
  - rewrite lookup_insert_eq. reflexivity.
Qed.

Lemma filed_lookup_other (providerId other : string)
      (info : SessionRequestInfo) (m : gmap string SessionRequestInfo) :
  other <> providerId -> filed providerId info m !! other = m !! other.
Proof.
  intros Hne. unfold filed. destruct (Nat.eqb _ 0).
  - apply lookup_delete_ne. congruence.
  - apply lookup_insert_ne. congruence.
Qed.

Lemma filed_same (providerId : string) (info : SessionRequestInfo)
      (m : gmap string SessionRequestInfo) :
  m !! providerId = Some info -> info <> [] -> filed providerId info m = m.
Proof.
  intros Hm Hne. unfold filed. destruct info as [|x info]; [congruence|].
  simpl. apply insert_id, Hm.
Qed.

Lemma pendingStill_wellKept (sessions : list AuthenticationSession)
      (providerId : string) (info : SessionRequestInfo)
      (m : gmap string SessionRequestInfo) :
  wellKept m -> m !! providerId = Some info ->
  wellKept (filed providerId (pendingStill sessions info) m).
Proof.
  intros Hm Hinfo. unfold filed.
  destruct (pendingStill sessions info) as [|x kept] eqn:Hkept; simpl.
  - apply map_Forall_delete, Hm.
  - apply map_Forall_insert_2; [|exact Hm]. split; [discriminate|].
    rewrite <- Hkept. unfold pendingStill.
    destruct (Hm _ _ Hinfo) as [_ Hall].
    rewrite List.Forall_forall in *. intros request Hin.
    apply List.filter_In in Hin as [Hin _]. apply Hall, Hin.
Qed.

(** [updateNewSessionRequests] on a provider with requests pending. *)
Lemma updateNewSessionRequests_spec (st : ServiceState) (provider : Provider.t)
      (existing : SessionRequestInfo) (sessions : list AuthenticationSession) :
  _signInRequestItems st !! Provider.id provider = Some existing ->
  Provider.getSessions provider = Returned sessions ->
  NoDup (keys existing) ->
  existing <> [] ->
  let left := filed (Provider.id provider) (pendingStill sessions existing)
                    (_signInRequestItems st) in
  let cleared := existsb (completes sessions) existing
                 && Nat.eqb (size left) 0 in
  exists st',
    updateNewSessionRequests st provider = (st', Returned tt) /\
    _signInRequestItems st' = left /\
    log st'
    = log st ++ map Dispose (handlesOf (completed sessions existing))
      ++ (if cleared
          then match _badgeDisposable st with
               | Some badge => [Dispose badge]
               | None => []
               end
          else []) /\
    _badgeDisposable st' = (if cleared then None else _badgeDisposable st) /\
    _placeholderMenuItem st' = _placeholderMenuItem st /\
    _noAccountsMenuItem st' = _noAccountsMenuItem st /\
    _authenticationProviders st' = _authenticationProviders st.
Proof.
  intros Hexisting Hsessions Hnd Hne left cleared.
  unfold updateNewSessionRequests. rewrite Hexisting, Hsessions.
  destruct (loop_spec (Provider.id provider) sessions existing [] st false Hnd)
    as (st1 & Hfold & Hp & Hn & Hb & Ha & Hlog & Hmap).
  cbn [app orb] in Hfold, Hmap. rewrite Hfold.
  subst cleared.
  destruct (existsb (completes sessions) existing) eqn:Hchanged; cbn [andb].
  - fold left in Hmap. rewrite Hmap.
    destruct (Nat.eqb (size left) 0).
    + eexists. split; [reflexivity|]. simpl.
      rewrite Hb. destruct (_badgeDisposable st) as [badge|]; simpl;
        rewrite ?Hlog, ?app_nil_r, <- ?app_assoc; auto 10.
    + exists st1. rewrite app_nil_r. auto 10.
  - exists st1. rewrite app_nil_r.
    rewrite (completed_none _ _ Hchanged), app_nil_r in Hlog.
    rewrite (completed_none _ _ Hchanged). simpl. rewrite app_nil_r.
    split; [reflexivity|].
    split; [|auto 10].
    rewrite Hmap. subst left.
    rewrite (pendingStill_all _ _ Hchanged). symmetry.
    apply filed_same; assumption.
Qed.

Lemma fold_left_requests_ge (info : SessionRequestInfo) (n : nat) :
  n <= fold_left (fun n request =>
                    n + length (requestingExtensionIds (snd request)))
                 info n.
Proof.
  revert n. induction info as [|x info IH]; intros n; simpl; [lia|].
  etransitivity; [|apply IH]. lia.
Qed.

(** Well kept requests count for nothing only when there are none. *)
Lemma numberOfRequests_zero (st : ServiceState) :
  wellKept (_signInRequestItems st) ->
  numberOfRequests st = 0 <-> _signInRequestItems st = ∅.
Proof.
  intros Hwk. unfold numberOfRequests. split.
  - revert Hwk.
    apply (map_fold_weak_ind
             (fun n (m : gmap string SessionRequestInfo) =>
                wellKept m -> n = 0 -> m = ∅)); [reflexivity|].
    intros i info m n Hi _ Hwk Hzero. exfalso.
    destruct (map_Forall_insert_1_1 _ _ _ _ Hwk) as [Hne Hall].
    destruct info as [|x info]; [congruence|].
    apply Forall_cons in Hall as [Hx _].
    simpl in Hzero.
    pose proof (fold_left_requests_ge info
                  (n + length (requestingExtensionIds (snd x)))) as Hge.
    destruct (requestingExtensionIds (snd x)); [congruence|].
    rewrite Hzero in Hge. cbn [length] in Hge. lia.
  - intros ->. apply map_fold_empty.
Qed.

End ReconcileProvider.

Section SessionsUpdateFacts.

Import Service.

Lemma existsb_completed (sessions : list AuthenticationSession)
      (info : SessionRequestInfo) :
  existsb (completes sessions) info
  = negb (Nat.eqb (length (completed sessions info)) 0).
Proof.
  induction info as [|x info IH]; [reflexivity|].
  rewrite completed_cons. simpl.
  destruct (completes sessions x); [reflexivity|exact IH].
Qed.

Lemma numberOfRequests_size (st : ServiceState) :
  wellKept (_signInRequestItems st) ->
  Nat.eqb (size (_signInRequestItems st)) 0 = Nat.eqb (numberOfRequests st) 0.
Proof.
  intros Hwk.
  destruct (Nat.eqb_spec (size (_signInRequestItems st)) 0) as [Hs|Hs],
           (Nat.eqb_spec (numberOfRequests st) 0) as [Hn|Hn];
    try reflexivity; exfalso.
  - apply Hn. apply numberOfRequests_zero; [exact Hwk|].
    apply map_size_empty_iff, Hs.
  - apply Hs. apply map_size_empty_iff.
    apply numberOfRequests_zero; assumption.
Qed.

End SessionsUpdateFacts.

(** What the loop of [updateNewSessionRequests] does once requests are
    filed under the id of the provider (none is while the filing code of
    [requestNewSession] is commented out): with distinct keys and a map
    that is well kept, it removes the requests whose key is the canonical
    scopes of a session the provider reports, disposes of their handles
    once each, and clears the badge when the count falls to zero. *)
Lemma sessionsUpdate_with_requests
        (updateSessionItems :
           Service.Provider.t -> AuthenticationSessionsChangeEvent ->
           Service.Provider.t * outcome unit)
        (st : Service.ServiceState) (id : string)
        (event : AuthenticationSessionsChangeEvent)
        (provider provider' : Service.Provider.t)
        (sessions : list AuthenticationSession)
        (existing : Service.SessionRequestInfo) :
  Service._authenticationProviders st !! id = Some provider ->
  updateSessionItems provider event = (provider', Returned tt) ->
  Service.Provider.getSessions provider' = Returned sessions ->
  Service._signInRequestItems st !! Service.Provider.id provider'
  = Some existing ->
  NoDup (Service.keys existing) ->
  wellKept (Service._signInRequestItems st) ->
  let providerId := Service.Provider.id provider' in
  let before :=
    Service.updateAccountsMenuItem
      (Service.set_authenticationProviders
         (<[id := provider']> (Service._authenticationProviders st))
         (Service.emit [Service.DidChangeSessions id event] st)) in
  let result := Service.sessionsUpdate updateSessionItems st id event in
  let after := fst result in
  let removed := completed sessions existing in
  let cleared := negb (Nat.eqb (length removed) 0)
                 && Nat.eqb (Service.numberOfRequests after) 0 in
  snd result = Returned tt /\
  (forall key,
      pendingRequest after providerId key
      = if existsb (Service.sessionCompletes key) sessions then None
        else pendingRequest st providerId key) /\
  (forall other,
      other <> providerId ->
      Service._signInRequestItems after !! other
      = Service._signInRequestItems st !! other) /\
  Service.log after
  = Service.log before ++ map Service.Dispose (handlesOf removed)
    ++ (if cleared
        then match Service._badgeDisposable st with
             | Some badge => [Service.Dispose badge]
             | None => []
             end
        else []) /\
  Service._badgeDisposable after
  = (if cleared then None else Service._badgeDisposable st) /\
  Service._authenticationProviders after
  = <[id := provider']> (Service._authenticationProviders st) /\
  wellKept (Service._signInRequestItems after).
Proof.
  intros Hreg Hupd Hsessions Hexisting Hnd Hwk
         providerId before result after removed cleared.
  assert (Hne : existing <> []) by (destruct (Hwk _ _ Hexisting); assumption).
  assert (Hbefore : Service._signInRequestItems before
                    = Service._signInRequestItems st)
    by (subst before; rewrite updateAccountsMenuItem_signInRequestItems;
        reflexivity).
  assert (Hbadge : Service._badgeDisposable before
                   = Service._badgeDisposable st)
    by (subst before; rewrite updateAccountsMenuItem_badgeDisposable;
        reflexivity).
  assert (Hprov : Service._authenticationProviders before
                  = <[id := provider']> (Service._authenticationProviders st))
    by (subst before; rewrite updateAccountsMenuItem_authenticationProviders;
        reflexivity).
  assert (Hexisting' : Service._signInRequestItems before
                       !! Service.Provider.id provider' = Some existing)
    by (rewrite Hbefore; exact Hexisting).
  destruct (updateNewSessionRequests_spec before provider' existing sessions
              Hexisting' Hsessions Hnd Hne)
    as (st' & Hrun & Hmap & Hlog & Hb & _ & _ & Ha).
  assert (Hresult : result = (st', Returned tt)).
  { subst result. unfold Service.sessionsUpdate. simpl.
    rewrite Hreg, Hupd. unfold Service.isTruthy. exact Hrun. }
  subst after. rewrite Hresult. cbn [fst snd].
  rewrite Hbefore in Hmap.
  assert (Hwk' : wellKept (Service._signInRequestItems st'))
    by (rewrite Hmap; apply pendingStill_wellKept; assumption).
  assert (Hcleared :
            existsb (completes sessions) existing
            && Nat.eqb (size (filed (Service.Provider.id provider')
                                    (pendingStill sessions existing)
                                    (Service._signInRequestItems before))) 0
            = cleared).
  { subst cleared removed. rewrite Hresult. cbn [fst].
    rewrite existsb_completed. f_equal.
    rewrite Hbefore, <- Hmap. apply numberOfRequests_size, Hwk'. }
  rewrite Hcleared, Hbadge in Hlog, Hb.
  split; [reflexivity|].
  split; [|split; [|split; [exact Hlog|split; [exact Hb|split]]]].
  - intros key. subst providerId. unfold pendingRequest.
    rewrite Hmap, Hexisting, filed_lookup. apply getRequest_pendingStill.
  - intros other Hother. rewrite Hmap. apply filed_lookup_other, Hother.
  - rewrite Ha. exact Hprov.
  - exact Hwk'.
Qed.

(** ** What the service can come to hold *)

Section Reachable.

Import Service.

Variable updateSessionItems :
  Provider.t -> AuthenticationSessionsChangeEvent -> Provider.t * outcome unit.

Lemma perform_keeps_no_request (st : ServiceState) (c : ServiceCall) :
  _signInRequestItems st = ∅ ->
  _signInRequestItems (perform updateSessionItems st c) = ∅.
Proof.
  intros Hempty. destruct c as [id provider|id|id event|id scopes e n]; simpl.
  - unfold registerAuthenticationProvider.
    rewrite updateAccountsMenuItem_signInRequestItems. simpl.
    destruct (_placeholderMenuItem st); exact Hempty.
  - unfold unregisterAuthenticationProvider.
    destruct (_authenticationProviders st !! id); [|exact Hempty].
    rewrite updateAccountsMenuItem_signInRequestItems. exact Hempty.
  - unfold sessionsUpdate. simpl.
    destruct (_authenticationProviders st !! id) as [provider|];
      [|exact Hempty].
    destruct (updateSessionItems provider event) as [provider' [[]|e]];
      [|exact Hempty].
    unfold isTruthy, updateNewSessionRequests.
    rewrite updateAccountsMenuItem_signInRequestItems. simpl.
    rewrite Hempty, lookup_empty. simpl.
    rewrite updateAccountsMenuItem_signInRequestItems. exact Hempty.
  - rewrite requestNewSession_state. exact Hempty.
Qed.

(** Nothing files a sign-in request: whatever calls a service has
    answered since its construction, its map of requests is empty. *)
Lemma no_request_is_ever_filed (cs : list ServiceCall) :
  _signInRequestItems (fold_left (perform updateSessionItems) cs new) = ∅.
Proof.
  assert (H : forall st, _signInRequestItems st = ∅ ->
                         _signInRequestItems
                           (fold_left (perform updateSessionItems) cs st) = ∅).
  { induction cs as [|c cs IH]; intros st Hst; [exact Hst|].
    simpl. apply IH, perform_keeps_no_request, Hst. }
  apply H. reflexivity.
Qed.

End Reachable.

(** * Further properties *)

(** ** The registry of the service *)

Section Registry.

Import Service.

Lemma updateAccountsMenuItem_events (st : ServiceState) :
  withoutItemDisposals (log (updateAccountsMenuItem st))
  = withoutItemDisposals (log st).
Proof.
  destruct (updateAccountsMenuItem_spec st) as [->|(item & _ & ->)];
    [reflexivity|].
  unfold withoutItemDisposals. simpl.
  rewrite List.filter_app. simpl. apply app_nil_r.
Qed.

Lemma isAuthenticationProviderRegistered_spec (st : ServiceState)
      (id : string) :
  isAuthenticationProviderRegistered st id = true
  <-> is_Some (_authenticationProviders st !! id).
Proof. unfold isAuthenticationProviderRegistered. apply bool_decide_eq_true. Qed.

End Registry.

(** X1.  A provider registered under an id is the one every operation on
    that id reaches afterwards, whatever was registered under it before;
    what is registered under other ids stays. *)
Theorem registered_provider_is_reached
        (st : Service.ServiceState) (id : string) (provider : Service.Provider.t)
        (scopes : list string) (sessionId accountName : string) :
  let st' := Service.registerAuthenticationProvider st id provider in
  Service.isAuthenticationProviderRegistered st' id = true /\
  Service.getDisplayName st' id
  = Returned (Service.Provider.displayName provider) /\
  Service.supportsMultipleAccounts st' id
  = Returned (Service.Provider.supportsMultipleAccounts provider) /\
  Service.getSessions st' id = Service.Provider.getSessions provider /\
  Service.login st' id scopes = Service.Provider.login provider scopes /\
  Service.logout st' id sessionId
  = Service.Provider.logout provider sessionId /\
  Service.signOutOfAccount st' id accountName
  = Service.Provider.signOut provider accountName /\
  (forall other,
      other <> id ->
      Service._authenticationProviders st' !! other
      = Service._authenticationProviders st !! other) /\
  Service._signInRequestItems st' = Service._signInRequestItems st.
Proof.
  intros st'.
  assert (H : Service._authenticationProviders st' !! id = Some provider).
  { subst st'. rewrite registerAuthenticationProvider_stores.
    apply lookup_insert_eq. }
  unfold Service.getDisplayName, Service.supportsMultipleAccounts,
    Service.getSessions, Service.login, Service.logout,
    Service.signOutOfAccount.
  rewrite H.
  split; [apply isAuthenticationProviderRegistered_spec; rewrite H; eauto|].
  repeat (split; [reflexivity|]).
  split.
  - intros other Hother. subst st'.
    rewrite registerAuthenticationProvider_stores.
    apply lookup_insert_ne. congruence.
  - subst st'. unfold Service.registerAuthenticationProvider.
    rewrite updateAccountsMenuItem_signInRequestItems. simpl.
    destruct (Service._placeholderMenuItem st); reflexivity.
Qed.

(** X2.  After [unregisterAuthenticationProvider] no provider is
    registered under the id and the operations on it throw; other ids and
    the sign-in requests stay; for an id that was not registered the call
    changes nothing at all and fires nothing. *)
Theorem unregistered_provider_is_forgotten
        (st : Service.ServiceState) (id : string) :
  let st' := Service.unregisterAuthenticationProvider st id in
  Service.isAuthenticationProviderRegistered st' id = false /\
  Service.getDisplayName st' id = Thrown (Service.noProviderRegistered id) /\
  Service.getSessions st' id = Thrown (Service.noProviderRegistered id) /\
  (forall other,
      other <> id ->
      Service._authenticationProviders st' !! other
      = Service._authenticationProviders st !! other) /\
  (Service._authenticationProviders st !! id = None -> st' = st).
Proof.
  intros st'.
  assert (H : Service._authenticationProviders st'
              = delete id (Service._authenticationProviders st)).
  { subst st'. unfold Service.unregisterAuthenticationProvider.
    destruct (Service._authenticationProviders st !! id) eqn:Hid.
    - rewrite updateAccountsMenuItem_authenticationProviders. reflexivity.
    - symmetry. apply delete_id, Hid. }
  assert (Hnone : Service._authenticationProviders st' !! id = None)
    by (rewrite H; apply lookup_delete_eq).
  unfold Service.getDisplayName, Service.getSessions. rewrite Hnone.
  split.
  { apply not_true_is_false. intros Hreg.
    apply isAuthenticationProviderRegistered_spec in Hreg.
    rewrite Hnone in Hreg. destruct Hreg; discriminate. }
  repeat (split; [reflexivity|]).
  split.
  - intros other Hother. rewrite H. apply lookup_delete_ne. congruence.
  - intros Habsent. subst st'.
    unfold Service.unregisterAuthenticationProvider. rewrite Habsent.
    reflexivity.
Qed.

(** X3.  Registering a provider under a fresh id and unregistering that
    id gives the registry back as it was; the sign-in requests were not
    touched; of events and provider disposals the two calls add the
    registration event, the [dispose] of that provider and the
    unregistration event, in this order. *)
Theorem register_then_unregister
        (st : Service.ServiceState) (id : string)
        (provider : Service.Provider.t) :
  Service._authenticationProviders st !! id = None ->
  let st' := Service.unregisterAuthenticationProvider
               (Service.registerAuthenticationProvider st id provider) id in
  Service._authenticationProviders st' = Service._authenticationProviders st /\
  Service._signInRequestItems st' = Service._signInRequestItems st /\
  withoutItemDisposals (Service.log st')
  = withoutItemDisposals (Service.log st)
    ++ [Service.DidRegisterAuthenticationProvider id;
        Service.ProviderDispose provider;
        Service.DidUnregisterAuthenticationProvider id].
Proof.
  intros Hfresh st'. subst st'.
  set (st1 := Service.registerAuthenticationProvider st id provider).
  assert (H1 : Service._authenticationProviders st1 !! id = Some provider).
  { subst st1. rewrite registerAuthenticationProvider_stores.
    apply lookup_insert_eq. }
  assert (Hlog1 : withoutItemDisposals (Service.log st1)
                  = withoutItemDisposals (Service.log st)
                    ++ [Service.DidRegisterAuthenticationProvider id]).
  { subst st1. unfold Service.registerAuthenticationProvider.
    rewrite updateAccountsMenuItem_events. unfold withoutItemDisposals.
    cbn [Service._placeholderMenuItem Service.emit
         Service.set_authenticationProviders].
    destruct (Service._placeholderMenuItem st); simpl;
      rewrite ?List.filter_app; simpl; rewrite ?app_nil_r; reflexivity. }
  unfold Service.unregisterAuthenticationProvider. rewrite H1.
  rewrite updateAccountsMenuItem_authenticationProviders,
          updateAccountsMenuItem_signInRequestItems,
          updateAccountsMenuItem_events.
  simpl. split; [|split].
  - subst st1. rewrite registerAuthenticationProvider_stores.
    rewrite delete_insert_eq. apply delete_id, Hfresh.
  - subst st1. unfold Service.registerAuthenticationProvider.
    rewrite updateAccountsMenuItem_signInRequestItems. simpl.
    destruct (Service._placeholderMenuItem st); reflexivity.
  - unfold withoutItemDisposals in *. rewrite !List.filter_app, Hlog1.
    simpl. rewrite <- !app_assoc. reflexivity.
Qed.

Lemma register_then_unregister_witness :
  Service._authenticationProviders Service.new !! "acme" = None /\
  Service._authenticationProviders
    (Service.unregisterAuthenticationProvider
       (Service.registerAuthenticationProvider Service.new "acme" Sample.acme)
       "acme")
  = Service._authenticationProviders Service.new.
Proof.
  assert (H : Service._authenticationProviders Service.new !! "acme" = None)
    by reflexivity.
  split; [exact H|].
  exact (proj1 (register_then_unregister Service.new "acme" Sample.acme H)).
Defined.

(** ** What [sessionsUpdate] leaves alone *)

Section Frame.

Import Service.

Variable updateSessionItems :
  Provider.t -> AuthenticationSessionsChangeEvent -> Provider.t * outcome unit.

Lemma completeRequest_frame (providerId : string)
      (sessions : list AuthenticationSession) (acc : LoopState)
      (key : string) :
  let st := fst (fst acc) in
  let st' := fst (fst (completeRequest providerId sessions acc key)) in
  _authenticationProviders st' = _authenticationProviders st /\
  _placeholderMenuItem st' = _placeholderMenuItem st /\
  _noAccountsMenuItem st' = _noAccountsMenuItem st /\
  exists l, log st' = log st ++ l.
Proof.
  destruct acc as [[st info] changed]. unfold completeRequest.
  destruct (existsb _ sessions); simpl.
  - destruct (getRequest key info), (Nat.eqb _ 0); simpl;
      repeat (split; [reflexivity|]);
      first [eexists; reflexivity | exists []; symmetry; apply app_nil_r].
  - repeat (split; [reflexivity|]). exists []. symmetry. apply app_nil_r.
Qed.

Lemma loop_frame (providerId : string) (sessions : list AuthenticationSession)
      (ks : list string) :
  forall acc : LoopState,
    let st := fst (fst acc) in
    let st' := fst (fst (fold_left (completeRequest providerId sessions)
                                   ks acc)) in
    _authenticationProviders st' = _authenticationProviders st /\
    _placeholderMenuItem st' = _placeholderMenuItem st /\
    _noAccountsMenuItem st' = _noAccountsMenuItem st /\
    exists l, log st' = log st ++ l.
Proof.
  induction ks as [|key ks IH]; intros acc; simpl.
  - repeat (split; [reflexivity|]). exists []. symmetry. apply app_nil_r.
  - destruct (IH (completeRequest providerId sessions acc key))
      as (Ha & Hp & Hn & l & Hl).
    destruct (completeRequest_frame providerId sessions acc key)
      as (Ha' & Hp' & Hn' & l' & Hl').
    simpl in *. rewrite Ha, Hp, Hn, Hl, Ha', Hp', Hn', Hl'.
    repeat (split; [reflexivity|]).
    exists (l' ++ l). apply eq_sym, app_assoc.
Qed.

(** [updateNewSessionRequests] keeps the registry and the menu items,
    and only adds to the log. *)
Lemma updateNewSessionRequests_frame (st : ServiceState)
      (provider : Provider.t) :
  let st' := fst (updateNewSessionRequests st provider) in
  _authenticationProviders st' = _authenticationProviders st /\
  _placeholderMenuItem st' = _placeholderMenuItem st /\
  _noAccountsMenuItem st' = _noAccountsMenuItem st /\
  exists l, log st' = log st ++ l.
Proof.
  cbv zeta. unfold updateNewSessionRequests.
  assert (Hsame : forall s : ServiceState,
             _authenticationProviders s = _authenticationProviders s /\
             _placeholderMenuItem s = _placeholderMenuItem s /\
             _noAccountsMenuItem s = _noAccountsMenuItem s /\
             exists l, log s = log s ++ l).
  { intros s. repeat (split; [reflexivity|]).
    exists []. symmetry. apply app_nil_r. }
  destruct (_signInRequestItems st !! Provider.id provider) as [existing|];
    [|apply Hsame].
  destruct (Provider.getSessions provider) as [sessions|e]; [|apply Hsame].
  pose proof (loop_frame (Provider.id provider) sessions (keys existing)
                         (st, existing, false)) as Hloop.
  destruct (fold_left _ _ _) as [[st1 info] changed]. simpl in Hloop.
  destruct Hloop as (Ha & Hp & Hn & l & Hl).
  destruct changed; [destruct (Nat.eqb _ 0)|]; cbn [fst];
    try (rewrite Ha, Hp, Hn, Hl; eauto 10).
  destruct (_badgeDisposable st1); simpl; rewrite Ha, Hp, Hn, Hl.
  - repeat (split; [reflexivity|]).
    eexists. rewrite <- app_assoc. reflexivity.
  - eauto 10.
Qed.

(** When it rejects, it has changed nothing. *)
Lemma updateNewSessionRequests_rejected (st st' : ServiceState)
      (provider : Provider.t) (e : Error) :
  updateNewSessionRequests st provider = (st', Thrown e) ->
  st' = st /\ Provider.getSessions provider = Thrown e.
Proof.
  unfold updateNewSessionRequests.
  destruct (_signInRequestItems st !! Provider.id provider) as [existing|];
    [|discriminate].
  destruct (Provider.getSessions provider) as [sessions|e'].
  - destruct (fold_left _ _ _) as [[st1 info] changed].
    destruct changed; [destruct (Nat.eqb _ 0)|]; discriminate.
  - intros [= <- <-]. auto.
Qed.

End Frame.

(** X4.  Whatever its arguments, [sessionsUpdate] first fires the change
    event, and it neither registers nor unregisters a provider: under
    another id the registry holds what it held, and the id of the event
    is registered afterwards exactly when it was before.  When the call
    rejects (the provider's [updateSessionItems] or [getSessions] did),
    the sign-in requests and the badge are as before the call. *)
Theorem sessionsUpdate_frame
        (updateSessionItems :
           Service.Provider.t -> AuthenticationSessionsChangeEvent ->
           Service.Provider.t * outcome unit)
        (st : Service.ServiceState) (id : string)
        (event : AuthenticationSessionsChangeEvent) :
  let result := Service.sessionsUpdate updateSessionItems st id event in
  let st' := fst result in
  (exists l, Service.log st'
             = Service.log st ++ Service.DidChangeSessions id event :: l) /\
  (forall other,
      other <> id ->
      Service._authenticationProviders st' !! other
      = Service._authenticationProviders st !! other) /\
  Service.isAuthenticationProviderRegistered st' id
  = Service.isAuthenticationProviderRegistered st id /\
  (forall e,
      snd result = Thrown e ->
      Service._signInRequestItems st' = Service._signInRequestItems st /\
      Service._badgeDisposable st' = Service._badgeDisposable st) /\
  (Service._authenticationProviders st !! id = None ->
   result
   = (Service.emit [Service.DidChangeSessions id event] st, Returned tt)).
Proof.
  intros result st'. subst st' result.
  unfold Service.sessionsUpdate, Service.isTruthy.
  cbn [Service._authenticationProviders Service.emit].
  destruct (Service._authenticationProviders st !! id) as [provider|] eqn:Hid.
  2:{ simpl. split; [eauto|]. split; [reflexivity|].
      split; [reflexivity|]. split; [discriminate|reflexivity]. }
  destruct (updateSessionItems provider event) as [provider' settled].
  assert (Hreg : forall m : gmap string Service.Provider.t,
             m = <[id := provider']> (Service._authenticationProviders st) ->
             bool_decide (is_Some (m !! id))
             = bool_decide (is_Some (Service._authenticationProviders st !! id))).
  { intros m ->. rewrite lookup_insert_eq, Hid.
    rewrite !bool_decide_eq_true_2; eauto. }
  destruct settled as [[]|e].
  - match goal with
    | |- context [Service.updateNewSessionRequests ?s ?p] =>
        pose proof (updateNewSessionRequests_frame s p) as Hframe;
        pose proof (fun st1 e => updateNewSessionRequests_rejected s st1 p e)
          as Hrej;
        destruct (Service.updateNewSessionRequests s p) as [st1 r] eqn:Hrun
    end.
    cbn [fst snd] in *. destruct Hframe as (Ha & _ & _ & l & Hl).
    rewrite updateAccountsMenuItem_authenticationProviders in Ha.
    cbn [Service._authenticationProviders Service.set_authenticationProviders
         Service.emit] in Ha.
    split; [|split; [|split; [|split]]].
    + rewrite Hl.
      match goal with
      | |- context [Service.updateAccountsMenuItem ?s] =>
          destruct (updateAccountsMenuItem_spec s) as [->|(item & _ & ->)]
      end; simpl; rewrite <- ?app_assoc; simpl; eauto.
    + intros other Hother. rewrite Ha. apply lookup_insert_ne. congruence.
    + unfold Service.isAuthenticationProviderRegistered. apply Hreg, Ha.
    + intros e ->. destruct (Hrej st1 e eq_refl) as [-> _].
      rewrite updateAccountsMenuItem_signInRequestItems,
              updateAccountsMenuItem_badgeDisposable. auto.
    + discriminate.
  - cbn [fst snd]. split; [|split; [|split; [|split]]].
    + simpl. eauto.
    + intros other Hother. simpl. apply lookup_insert_ne. congruence.
    + unfold Service.isAuthenticationProviderRegistered. apply Hreg.
      reflexivity.
    + auto.
    + discriminate.
Qed.

(** ** A service from its construction on *)

Section FromConstruction.

Import Service.

Variable updateSessionItems :
  Provider.t -> AuthenticationSessionsChangeEvent -> Provider.t * outcome unit.

Lemma idle_updateAccountsMenuItem (st : ServiceState) :
  _noAccountsMenuItem st = None -> updateAccountsMenuItem st = st.
Proof. intros H. unfold updateAccountsMenuItem. rewrite H. reflexivity. Qed.

Lemma idle_updateNewSessionRequests (st : ServiceState)
      (provider : Provider.t) :
  _signInRequestItems st = ∅ ->
  updateNewSessionRequests st provider = (st, Returned tt).
Proof.
  intros H. unfold updateNewSessionRequests. rewrite H, lookup_empty.
  reflexivity.
Qed.

Lemma perform_keeps_idle (st : ServiceState) (c : ServiceCall) :
  idle st -> idle (perform updateSessionItems st c).
Proof.
  intros (Hp & Hn & Hb & Hs & Hl).
  destruct c as [id provider|id|id event|id scopes e n]; simpl.
  - unfold registerAuthenticationProvider. simpl. rewrite Hp.
    rewrite idle_updateAccountsMenuItem by exact Hn.
    repeat (split; [assumption|]). simpl.
    apply Forall_app. split; [exact Hl|]. repeat constructor.
  - unfold unregisterAuthenticationProvider.
    destruct (_authenticationProviders st !! id) as [provider|];
      [|repeat split; assumption].
    rewrite idle_updateAccountsMenuItem by exact Hn.
    repeat (split; [assumption|]). simpl.
    rewrite <- app_assoc. apply Forall_app. split; [exact Hl|].
    repeat constructor.
  - unfold sessionsUpdate, isTruthy. simpl.
    assert (Hfired : Forall (fun e => isItemDispose e = false)
                            (log st ++ [DidChangeSessions id event]))
      by (apply Forall_app; split; [exact Hl|repeat constructor]).
    destruct (_authenticationProviders st !! id) as [provider|];
      [|repeat split; assumption].
    destruct (updateSessionItems provider event) as [provider' [[]|e]];
      [|repeat split; assumption].
    rewrite idle_updateAccountsMenuItem by exact Hn.
    rewrite idle_updateNewSessionRequests by exact Hs.
    repeat split; assumption.
  - rewrite requestNewSession_state. repeat split; assumption.
Qed.

Lemma isRegistered_insert (m : gmap string Provider.t) (i id : string)
      (provider : Provider.t) :
  bool_decide (is_Some (<[i := provider]> m !! id))
  = if String.eqb i id then true else bool_decide (is_Some (m !! id)).
Proof.
  destruct (String.eqb_spec i id) as [->|Hne].
  - rewrite lookup_insert_eq. apply bool_decide_eq_true_2. eauto.
  - rewrite lookup_insert_ne by exact Hne. reflexivity.
Qed.

Lemma isRegistered_delete (m : gmap string Provider.t) (i id : string) :
  bool_decide (is_Some (delete i m !! id))
  = if String.eqb i id then false else bool_decide (is_Some (m !! id)).
Proof.
  destruct (String.eqb_spec i id) as [->|Hne].
  - rewrite lookup_delete_eq. apply bool_decide_eq_false_2.
    intros [x Hx]. discriminate.
  - rewrite lookup_delete_ne by exact Hne. reflexivity.
Qed.

Lemma sessionsUpdate_providers (st : ServiceState) (id : string)
      (event : AuthenticationSessionsChangeEvent) :
  _authenticationProviders (fst (sessionsUpdate updateSessionItems st id event))
  = match _authenticationProviders st !! id with
    | Some provider =>
        <[id := fst (updateSessionItems provider event)]>
          (_authenticationProviders st)
    | None => _authenticationProviders st
    end.
Proof.
  unfold sessionsUpdate, isTruthy. simpl.
  destruct (_authenticationProviders st !! id) as [provider|];
    [|reflexivity].
  destruct (updateSessionItems provider event) as [provider' [[]|e]];
    [|reflexivity].
  match goal with
  | |- context [updateNewSessionRequests ?s ?p] =>
      destruct (updateNewSessionRequests_frame s p) as (-> & _)
  end.
  rewrite updateAccountsMenuItem_authenticationProviders. reflexivity.
Qed.

Lemma perform_registered (st : ServiceState) (c : ServiceCall) (id : string) :
  isAuthenticationProviderRegistered (perform updateSessionItems st c) id
  = match c with
    | CallRegister i _ =>
        if String.eqb i id then true
        else isAuthenticationProviderRegistered st id
    | CallUnregister i =>
        if String.eqb i id then false
        else isAuthenticationProviderRegistered st id
    | _ => isAuthenticationProviderRegistered st id
    end.
Proof.
  unfold isAuthenticationProviderRegistered.
  destruct c as [i provider|i|i event|i scopes e n]; simpl.
  - rewrite registerAuthenticationProvider_stores. apply isRegistered_insert.
  - unfold unregisterAuthenticationProvider.
    destruct (_authenticationProviders st !! i) as [provider|] eqn:Hi.
    + rewrite updateAccountsMenuItem_authenticationProviders. simpl.
      apply isRegistered_delete.
    + destruct (String.eqb_spec i id) as [->|Hne]; [|reflexivity].
      rewrite Hi. apply bool_decide_eq_false_2. intros [x Hx]. discriminate.
  - rewrite sessionsUpdate_providers.
    destruct (_authenticationProviders st !! i) as [provider|] eqn:Hi;
      [|reflexivity].
    rewrite isRegistered_insert.
    destruct (String.eqb_spec i id) as [->|Hne]; [|reflexivity].
    rewrite Hi. symmetry. apply bool_decide_eq_true_2. eauto.
  - rewrite requestNewSession_state. reflexivity.
Qed.

End FromConstruction.

(** X6.  Whatever calls a service has answered since its construction, it
    holds no menu item, no badge and no sign-in request, and it has
    disposed of none: all that the log holds are events and the [dispose]
    of providers. *)
Theorem service_holds_no_item
        (updateSessionItems :
           Service.Provider.t -> AuthenticationSessionsChangeEvent ->
           Service.Provider.t * outcome unit)
        (cs : list ServiceCall) :
  let st := fold_left (perform updateSessionItems) cs Service.new in
  Service._placeholderMenuItem st = None /\
  Service._noAccountsMenuItem st = None /\
  Service._badgeDisposable st = None /\
  Service._signInRequestItems st = ∅ /\
  withoutItemDisposals (Service.log st) = Service.log st.
Proof.
  intros st.
  assert (H : forall s, idle s ->
                        idle (fold_left (perform updateSessionItems) cs s)).
  { induction cs as [|c cs' IH]; intros s Hs; [exact Hs|].
    simpl. apply IH, perform_keeps_idle, Hs. }
  destruct (H Service.new) as (Hp & Hn & Hb & Hs & Hl).
  { repeat split. constructor. }
  fold st in Hp, Hn, Hb, Hs, Hl.
  repeat (split; [assumption|]).
  unfold withoutItemDisposals.
  induction Hl as [|e l He _ IH]; [reflexivity|].
  simpl. rewrite He. simpl. f_equal. exact IH.
Qed.

(** X7.  Whether a provider is registered under an id after a list of
    calls is decided by the last registration or unregistration of that
    id among them: [sessionsUpdate] and [requestNewSession] never change
    it, and calls on other ids do not either. *)
Theorem registered_after_calls
        (updateSessionItems :
           Service.Provider.t -> AuthenticationSessionsChangeEvent ->
           Service.Provider.t * outcome unit)
        (cs : list ServiceCall) (id : string) :
  Service.isAuthenticationProviderRegistered
    (fold_left (perform updateSessionItems) cs Service.new) id
  = registeredAfter cs id.
Proof.
  unfold registeredAfter.
  match goal with
  | |- _ = fold_left ?f cs false => set (decide_by := f)
  end.
  assert (H : forall b st,
             Service.isAuthenticationProviderRegistered st id = b ->
             Service.isAuthenticationProviderRegistered
               (fold_left (perform updateSessionItems) cs st) id
             = fold_left decide_by cs b).
  { induction cs as [|c cs' IH]; intros b st Hst; [exact Hst|].
    simpl. apply IH. rewrite perform_registered, Hst.
    destruct c; reflexivity. }
  apply H. reflexivity.
Qed.

(** ** [readAllowedExtensions] *)

Section AllowedExtensions.

Import Storage.

Lemma hasHyphen_cons (c : ascii) (s : string) :
  hasHyphen (String c s) = Ascii.eqb "-"%char c || hasHyphen s.
Proof. reflexivity. Qed.

(** The first hyphen of a key tells where the provider id ends, when the
    id has none. *)
Lemma append_hyphen_inj (x y r r' : string) :
  hasHyphen x = false -> hasHyphen y = false ->
  x +:+ "-" +:+ r = y +:+ "-" +:+ r' -> x = y /\ r = r'.
Proof.
  revert y. induction x as [|c x IH]; intros [|d y] Hx Hy Heq;
    repeat (rewrite append_empty in Heq || rewrite append_String in Heq).
  - injection Heq as ->. auto.
  - injection Heq as <- _. rewrite hasHyphen_cons in Hy. discriminate.
  - injection Heq as -> _. rewrite hasHyphen_cons in Hx. discriminate.
  - injection Heq as -> Heq.
    rewrite hasHyphen_cons in Hx, Hy.
    apply orb_false_iff in Hx as [_ Hx]. apply orb_false_iff in Hy as [_ Hy].
    destruct (IH y Hx Hy Heq) as [-> ->]. auto.
Qed.

Lemma append_assoc (a b c : string) : (a +:+ b) +:+ c = a +:+ b +:+ c.
Proof.
  induction a as [|x a IH]; [reflexivity|].
  rewrite !append_String, IH. reflexivity.
Qed.

End AllowedExtensions.

(** X8.  [readAllowedExtensions] never rejects.  It resolves to the
    empty list unless the storage resolved to a non-empty text under the
    key of the provider and the account and [JSON.parse] returned on that
    text; then it resolves to what [JSON.parse] returned.  A rejection of
    the storage and an error of the parser are swallowed alike. *)
Theorem readAllowedExtensions_is_fail_soft
        (JSON_parse : string -> outcome (list Storage.AllowedExtension))
        (storageService : Storage.StorageService)
        (providerId accountName : string) :
  exists trusted,
    Storage.readAllowedExtensions JSON_parse storageService
                                  providerId accountName
    = Returned trusted /\
    (trusted <> [] ->
     exists src,
       Storage.getData storageService
                       (Storage.storageKey providerId accountName)
       = Returned (Some src) /\
       src <> "" /\ JSON_parse src = Returned trusted) /\
    (forall src parsed,
        Storage.getData storageService
                        (Storage.storageKey providerId accountName)
        = Returned (Some src) ->
        src <> "" -> JSON_parse src = Returned parsed ->
        trusted = parsed) /\
    (forall src e,
        Storage.getData storageService
                        (Storage.storageKey providerId accountName)
        = Returned (Some src) ->
        JSON_parse src = Thrown e -> trusted = []) /\
    (forall e,
        Storage.getData storageService
                        (Storage.storageKey providerId accountName)
        = Thrown e -> trusted = []).
Proof.
  unfold Storage.readAllowedExtensions, Storage.tryCatchKeeping.
  destruct (Storage.getData storageService _) as [[src|]|e].
  - destruct (String.eqb_spec src "") as [->|Hsrc].
    + eexists. split; [reflexivity|].
      split; [congruence|]. split; [|split]; [|reflexivity|discriminate].
      intros src parsed [= <-] Hne. congruence.
    + destruct (JSON_parse src) as [parsed|e] eqn:Hparse.
      * exists parsed. split; [reflexivity|].
        split; [intros _; exists src; auto|].
        split; [|split]; [| |discriminate].
        -- intros src' parsed' [= <-] _ Hp. congruence.
        -- intros src' e [= <-] Hp. congruence.
      * exists []. split; [reflexivity|].
        split; [congruence|]. split; [|split]; [|reflexivity|discriminate].
        intros src' parsed' [= <-] _ Hp. congruence.
  - exists []. split; [reflexivity|]. split; [congruence|].
    split; [|split]; discriminate.
  - exists []. split; [reflexivity|]. split; [congruence|].
    split; [|split]; [discriminate|discriminate|reflexivity].
Qed.

(** X9.  Provider ids without a hyphen keep the storage keys apart: two
    pairs of provider and account have the same key only when they are
    the same pair. *)
Theorem storageKey_is_injective (providerId accountName
                                 providerId' accountName' : string) :
  hasHyphen providerId = false ->
  hasHyphen providerId' = false ->
  Storage.storageKey providerId accountName
  = Storage.storageKey providerId' accountName' ->
  providerId = providerId' /\ accountName = accountName'.
Proof. unfold Storage.storageKey. apply append_hyphen_inj. Qed.

Lemma storageKey_is_injective_witness :
  hasHyphen "acme" = false /\
  Storage.storageKey "acme" "octo-cat" = "acme-octo-cat" /\
  "acme" = "acme" /\ "octo-cat" = "octo-cat".
Proof.
  split; [reflexivity|]. split; [reflexivity|].
  exact (storageKey_is_injective "acme" "octo-cat" "acme" "octo-cat"
                                 eq_refl eq_refl eq_refl).
Defined.

(** X10.  A hyphen in a provider id lets two pairs share a key: the
    provider [p-x] with the account [a] and the provider [p] with the
    account [x-a] read the same list of allowed extensions. *)
Theorem readAllowedExtensions_shares_keys
        (JSON_parse : string -> outcome (list Storage.AllowedExtension))
        (storageService : Storage.StorageService) (p x a : string) :
  Storage.readAllowedExtensions JSON_parse storageService (p +:+ "-" +:+ x) a
  = Storage.readAllowedExtensions JSON_parse storageService p (x +:+ "-" +:+ a).
Proof.
  unfold Storage.readAllowedExtensions, Storage.storageKey.
  rewrite append_assoc. reflexivity.
Qed.

(** ** Providers of the plugin host *)

(** The registry of the plugin host after a registration and after the
    disposal of it. *)
Lemma ext_register_then_dispose_facts (st : Ext.ExtState)
      (provider : Ext.Provider.t) :
  Ext.authenticationProviders st !! Ext.Provider.id provider = None ->
  let st1 := snd (Ext.registerAuthenticationProvider provider st) in
  let st2 := snd (Ext.unregister provider st1) in
  Ext.authenticationProviders st1 !! Ext.Provider.id provider = Some provider /\
  Ext.authenticationProviders st2 !! Ext.Provider.id provider = None.
Proof.
  intros Hfresh st1 st2. subst st2 st1.
  rewrite (ext_register_fresh _ _ Hfresh). cbn [snd].
  unfold Ext.unregister, Ext.bind, Ext.await, Ext.getProviders,
    Ext.setProviders.
  cbn [fst snd Ext.authenticationProviders Ext.calls].
  split; [apply lookup_insert_eq | apply lookup_delete_eq].
Qed.

(** X11.  Registering a provider under a fresh id and disposing of the
    [Disposable] that the registration returned gives the registry back as
    it was, so that the provider can be registered again; the provider was
    subscribed to and announced to the host, then unsubscribed from and
    withdrawn, in this order. *)
Theorem ext_register_then_dispose (st : Ext.ExtState)
        (provider : Ext.Provider.t) :
  Ext.authenticationProviders st !! Ext.Provider.id provider = None ->
  let id := Ext.Provider.id provider in
  let registered := Ext.registerAuthenticationProvider provider st in
  let disposed := Ext.unregister provider (snd registered) in
  fst registered = Returned tt /\
  Ext.authenticationProviders (snd registered) !! id = Some provider /\
  fst disposed = Returned tt /\
  Ext.authenticationProviders (snd disposed) = Ext.authenticationProviders st /\
  Ext.calls (snd disposed)
  = Ext.calls st ++
    [Ext.Provider_onDidChangeSessions id;
     Ext.Main_registerAuthenticationProvider
       id (Ext.Provider.displayName provider)
       (Ext.Provider.supportsMultipleAccounts provider);
     Ext.Provider_listenerDispose id;
     Ext.Main_unregisterAuthenticationProvider id] /\
  fst (Ext.registerAuthenticationProvider provider (snd disposed))
  = Returned tt.
Proof.
  intros Hfresh id registered disposed.
  subst disposed registered. rewrite (ext_register_fresh _ _ Hfresh).
  cbn [fst snd].
  unfold Ext.unregister, Ext.bind, Ext.await, Ext.getProviders,
    Ext.setProviders.
  cbn [fst snd Ext.authenticationProviders Ext.calls].
  fold id.
  assert (Hback : delete id (<[id := provider]>
                               (Ext.authenticationProviders st))
                  = Ext.authenticationProviders st)
    by (rewrite delete_insert_eq; apply delete_id, Hfresh).
  split; [reflexivity|]. split; [apply lookup_insert_eq|].
  split; [reflexivity|]. split; [exact Hback|].
  split; [rewrite <- !app_assoc; reflexivity|].
  rewrite ext_register_fresh; [reflexivity|].
  cbn [Ext.authenticationProviders]. fold id. rewrite Hback. exact Hfresh.
Qed.

Lemma ext_register_then_dispose_witness :
  Ext.authenticationProviders Sample.withAcme !! "hub" = None /\
  Ext.authenticationProviders
    (snd (Ext.unregister Sample.hub
            (snd (Ext.registerAuthenticationProvider Sample.hub
                                                     Sample.withAcme))))
  = Ext.authenticationProviders Sample.withAcme.
Proof.
  assert (H : Ext.authenticationProviders Sample.withAcme
              !! Ext.Provider.id Sample.hub = None) by reflexivity.
  split; [exact H|].
  exact (proj1 (proj2 (proj2 (proj2
           (ext_register_then_dispose Sample.withAcme Sample.hub H))))).
Defined.

(** X12.  A provider registered in the plugin host answers for its id in
    the place of the host: once registered, [logout] and the sessions
    that [hasSessions] looks at come from the provider, and the callbacks
    [$login], [$logout] and [$getSessions] reach it; once the registration
    is disposed of, [logout] and the sessions go through the proxy again
    and the callbacks throw that the provider cannot be found, calling
    nothing. *)
Theorem ext_registration_routes
        (main : Ext.AuthenticationMain) (st : Ext.ExtState)
        (provider : Ext.Provider.t) (sessionId : string)
        (scopes : list string) :
  Ext.authenticationProviders st !! Ext.Provider.id provider = None ->
  let id := Ext.Provider.id provider in
  let st1 := snd (Ext.registerAuthenticationProvider provider st) in
  let st2 := snd (Ext.unregister provider st1) in
  Ext.logout main id sessionId st1
  = (Ext.Provider.logout provider sessionId,
     afterCall st1 (Ext.Provider_logout id sessionId)) /\
  Ext.resolveSessions main id st1
  = (Ext.Provider.getSessions provider,
     afterCall st1 (Ext.Provider_getSessions id)) /\
  Ext.rpc_login id scopes st1
  = (Ext.Provider.login provider scopes,
     afterCall st1 (Ext.Provider_login id scopes)) /\
  Ext.rpc_logout id sessionId st1
  = (Ext.Provider.logout provider sessionId,
     afterCall st1 (Ext.Provider_logout id sessionId)) /\
  Ext.rpc_getSessions id st1
  = (Ext.Provider.getSessions provider,
     afterCall st1 (Ext.Provider_getSessions id)) /\
  Ext.logout main id sessionId st2
  = (Ext.main_logout main id sessionId,
     afterCall st2 (Ext.Main_logout id sessionId)) /\
  Ext.resolveSessions main id st2
  = (Ext.main_getSessions main id,
     afterCall st2 (Ext.Main_getSessions id)) /\
  Ext.rpc_login id scopes st2 = (Thrown (Ext.unableToFindProvider id), st2) /\
  Ext.rpc_logout id sessionId st2
  = (Thrown (Ext.unableToFindProvider id), st2) /\
  Ext.rpc_getSessions id st2 = (Thrown (Ext.unableToFindProvider id), st2) /\
  Ext.rpc_getSessionAccessToken id sessionId st2
  = (Thrown (Ext.unableToFindProvider id), st2).
Proof.
  intros Hfresh id st1 st2.
  destruct (ext_register_then_dispose_facts st provider Hfresh)
    as (H1 & H2).
  fold id st1 in H1. fold id st1 st2 in H2.
  unfold Ext.logout, Ext.resolveSessions, Ext.rpc_login, Ext.rpc_logout,
    Ext.rpc_getSessions, Ext.rpc_getSessionAccessToken,
    Ext.bind, Ext.getProviders, Ext.throw.
  rewrite H1, H2. repeat split.
Qed.

Lemma ext_registration_routes_witness :
  Ext.authenticationProviders Sample.withAcme !! "hub" = None /\
  Ext.rpc_login "hub" ["repo"]
    (snd (Ext.registerAuthenticationProvider Sample.hub Sample.withAcme))
  = (Returned (Sample.newSession ["repo"]),
     afterCall
       (snd (Ext.registerAuthenticationProvider Sample.hub Sample.withAcme))
       (Ext.Provider_login "hub" ["repo"])).
Proof.
  assert (H : Ext.authenticationProviders Sample.withAcme
              !! Ext.Provider.id Sample.hub = None) by reflexivity.
  split; [exact H|].
  exact (proj1 (proj2 (proj2
           (ext_registration_routes (Sample.main true) Sample.withAcme
                                    Sample.hub "s1" ["repo"] H)))).
Defined.

(** ** Sessions of a provider of the plugin host *)

Section Sessions.

Lemma findSession_Some (id : string) (sessions : list AuthenticationSession)
      (s : AuthenticationSession) :
  Ext.findSession id sessions = Some s -> In s sessions /\ session_id s = id.
Proof.
  unfold Ext.findSession. intros H. apply List.find_some in H as [Hin Hid].
  split; [exact Hin|]. apply String.eqb_eq, Hid.
Qed.

Lemma findSession_None (id : string) (sessions : list AuthenticationSession) :
  Ext.findSession id sessions = None ->
  forall s, In s sessions -> session_id s <> id.
Proof.
  unfold Ext.findSession. intros H s Hin.
  apply String.eqb_neq. exact (List.find_none _ _ H s Hin).
Qed.

(** A session that [getSession] keeps has the canonical scopes asked
    for, and stems from a session the provider reported. *)
Lemma matchingSessions_In (scopes : list string)
      (all : list AuthenticationSession) (s : AuthenticationSession) :
  In s (matchingSessions scopes all) ->
  Ext.orderedScopesOf (session_scopes s) = Ext.orderedScopesOf scopes /\
  exists reported, In reported all /\ s = sortScopes reported.
Proof.
  unfold matchingSessions. intros H.
  apply List.filter_In in H as [Hin Hkey].
  apply List.in_map_iff in Hin as (reported & <- & Hin).
  split; [|eauto].
  apply String.eqb_eq in Hkey. rewrite <- Hkey.
  unfold Ext.orderedScopesOf. simpl. rewrite sort_idempotent. reflexivity.
Qed.

Lemma app_one_neq {A} (l : list A) (x : A) (l' : list A) :
  l ++ x :: l' = l -> False.
Proof.
  intros H. apply (f_equal (@length A)) in H.
  rewrite length_app in H. simpl in H. lia.
Qed.

End Sessions.

(** X13.  [$getSessionAccessToken] on a registered provider that reports
    its sessions: a token it resolves to is the access token of a reported
    session with the id asked for, the first of them; it rejects, with the
    error that the session cannot be found, exactly when no reported
    session has that id. *)
Theorem getSessionAccessToken_is_sound
        (st : Ext.ExtState) (providerId sessionId : string)
        (provider : Ext.Provider.t) (sessions : list AuthenticationSession) :
  Ext.authenticationProviders st !! providerId = Some provider ->
  Ext.Provider.getSessions provider = Returned sessions ->
  match fst (Ext.rpc_getSessionAccessToken providerId sessionId st) with
  | Returned token =>
      exists session,
        Ext.findSession sessionId sessions = Some session /\
        In session sessions /\ session_id session = sessionId /\
        session_accessToken session = token
  | Thrown e =>
      e = Ext.unableToFindSession sessionId /\
      forall session, In session sessions -> session_id session <> sessionId
  end.
Proof.
  intros Hreg Hsessions.
  unfold Ext.rpc_getSessionAccessToken, Ext.bind, Ext.getProviders, Ext.await.
  rewrite Hreg, Hsessions.
  destruct (Ext.findSession sessionId sessions) as [session|] eqn:Hfind;
    simpl.
  - exists session. destruct (findSession_Some _ _ _ Hfind). auto.
  - split; [reflexivity|]. apply findSession_None, Hfind.
Qed.

Lemma getSessionAccessToken_is_sound_witness :
  fst (Ext.rpc_getSessionAccessToken "hub" "s3" Sample.withHub)
  = Returned "t3" /\
  fst (Ext.rpc_getSessionAccessToken "hub" "s7" Sample.withHub)
  = Thrown (mkError "Unable to find session with id: s7").
Proof.
  pose proof (getSessionAccessToken_is_sound
                Sample.withHub "hub" "s7" Sample.hub
                [Sample.repoSession; Sample.repoSessionOfHubot]
                eq_refl eq_refl) as H.
  split; [reflexivity|].
  destruct (fst (Ext.rpc_getSessionAccessToken "hub" "s7" Sample.withHub))
    as [token|e].
  - destruct H as (session & Hfind & _). discriminate.
  - destruct H as [-> _]. reflexivity.
Defined.

(** X14.  Whatever the provider, the user and the host answer,
    [getSession] registers and unregisters nothing, the ids registered in
    the plugin host being the same afterwards, and it only adds to the log
    of calls, four calls at most. *)
Theorem getSession_frame
        (main : Ext.AuthenticationMain) (requestingExtension : Ext.PluginModel)
        (providerId : string) (scopes : list string)
        (options : Ext.AuthenticationGetSessionOptions) (st : Ext.ExtState) :
  let result :=
    Ext.getSession main requestingExtension providerId scopes options st in
  (dom (Ext.authenticationProviders (snd result)) : gset string)
  = dom (Ext.authenticationProviders st) /\
  exists new, Ext.calls (snd result) = Ext.calls st ++ new /\ length new <= 4.
Proof.
  intros result. subst result.
  unfold Ext.getSession, Ext.bind, Ext.getProviders, Ext.await, Ext.ret,
    Ext.throw.
  cbn [fst snd Ext.authenticationProviders Ext.calls].
  repeat match goal with
         | |- context [match ?x with _ => _ end] =>
             destruct x eqn:?;
             cbn [fst snd Ext.authenticationProviders Ext.calls negb]
         end;
    (split; [reflexivity|]);
    rewrite <- ?app_assoc; eexists; (split; [reflexivity|]); simpl; lia.
Qed.

(** X15.  A session that [getSession] returns for a provider of the
    plugin host without a [login] having been called is one of the
    sessions the provider reported, and its canonical scopes are those
    asked for. *)
Theorem reused_session_matches
        (main : Ext.AuthenticationMain) (requestingExtension : Ext.PluginModel)
        (providerId : string) (scopes : list string)
        (options : Ext.AuthenticationGetSessionOptions) (st : Ext.ExtState)
        (provider : Ext.Provider.t) (session : AuthenticationSession) :
  Ext.authenticationProviders st !! providerId = Some provider ->
  let result :=
    Ext.getSession main requestingExtension providerId scopes options st in
  fst result = Returned (Some session) ->
  logins (Ext.calls (snd result)) = logins (Ext.calls st) ->
  Ext.orderedScopesOf (session_scopes session) = Ext.orderedScopesOf scopes /\
  exists all reported,
    Ext.Provider.getSessions provider = Returned all /\
    In reported all /\ session = sortScopes reported.
Proof.
  intros Hreg result. subst result.
  unfold Ext.getSession, Ext.bind, Ext.getProviders, Ext.await, Ext.ret,
    Ext.throw.
  rewrite Hreg.
  destruct (Ext.Provider.getSessions provider) as [all|e]; [|discriminate].
  assert (Hin : forall s, In s (matchingSessions scopes all) ->
                Ext.orderedScopesOf (session_scopes s)
                = Ext.orderedScopesOf scopes /\
                exists all' reported,
                  Returned all = Returned all' /\
                  In reported all' /\ s = sortScopes reported).
  { intros s Hs. destruct (matchingSessions_In _ _ _ Hs) as (Hkey & r & Hr).
    split; [exact Hkey|]. exists all, r. tauto. }
  destruct (matchingSessions scopes all) as [|first rest] eqn:Hm;
    unfold matchingSessions, Ext.orderedScopesOf in Hm; rewrite Hm.
  - destruct (truthy (Ext.createIfNone options)).
    + destruct (Ext.main_loginPrompt _ _ _) as [[|]|e];
        cbn [negb fst snd]; try discriminate.
      destruct (Ext.Provider.login _ _) as [created|e];
        cbn [fst snd]; try discriminate.
      destruct (Ext.main_setTrustedExtension _ _ _ _ _) as [[]|e];
        cbn [fst snd]; try discriminate.
      intros _ Hlog. exfalso. simpl in Hlog. unfold logins in Hlog.
      rewrite !List.filter_app in Hlog. simpl in Hlog.
      rewrite !app_nil_r in Hlog. exact (app_one_neq _ _ _ Hlog).
    + destruct (Ext.main_requestNewSession _ _ _ _ _); discriminate.
  - destruct (Ext.Provider.supportsMultipleAccounts provider); cbn [negb].
    + destruct (Ext.main_selectSession _ _ _ _ _ _ _ _) as [selected|e];
        cbn [fst snd]; [|discriminate].
      intros Hres _.
      assert (Hfind : Ext.findSession (session_id selected) (first :: rest)
                      = Some session) by congruence.
      apply findSession_Some in Hfind as [Hfound _].
      apply Hin, Hfound.
    + destruct (Ext.main_getSessionsPrompt _ _ _ _ _ _) as [[|]|e];
        cbn [fst snd]; try discriminate.
      intros [= <-] _. apply Hin. left. reflexivity.
Qed.

Lemma reused_session_matches_witness :
  Ext.orderedScopesOf (session_scopes Sample.repoSession)
  = Ext.orderedScopesOf ["repo"].
Proof.
  apply (reused_session_matches
           (Sample.main true) Sample.foo "acme" ["repo"]
           {| Ext.createIfNone := Some true;
              Ext.clearSessionPreference := None |}
           Sample.withAcme Sample.acmeExt Sample.repoSession).
  - reflexivity.
  - reflexivity.
  - reflexivity.
Defined.

(** X16.  No session matches, [createIfNone] is set and the user
    consents: [login] of the provider is called once, with the scopes
    sorted, and nothing is asked of the host before it has settled.  When
    it rejects, [getSession] rejects likewise and no extension is marked
    as trusted.  When it resolves, the extension is marked as trusted for
    the account of the new session, and [getSession] resolves to that
    session; should the marking reject, [getSession] rejects although the
    login has taken place. *)
Theorem getSession_logs_in
        (main : Ext.AuthenticationMain) (requestingExtension : Ext.PluginModel)
        (providerId : string) (scopes : list string)
        (options : Ext.AuthenticationGetSessionOptions) (st : Ext.ExtState)
        (provider : Ext.Provider.t) (all : list AuthenticationSession) :
  let extensionId := toLowerCase (Ext.model_id requestingExtension) in
  let extensionName := orElse (Ext.model_displayName requestingExtension)
                              (Ext.model_name requestingExtension) in
  let asked := [Ext.Provider_getSessions providerId;
                Ext.Main_loginPrompt (Ext.Provider.displayName provider)
                                     extensionName;
                Ext.Provider_login providerId (sort scopes)] in
  Ext.authenticationProviders st !! providerId = Some provider ->
  Ext.Provider.getSessions provider = Returned all ->
  matchingSessions scopes all = [] ->
  truthy (Ext.createIfNone options) = true ->
  Ext.main_loginPrompt main (Ext.Provider.displayName provider) extensionName
  = Returned true ->
  Ext.getSession main requestingExtension providerId scopes options st
  = match Ext.Provider.login provider (sort scopes) with
    | Thrown e => (Thrown e, afterCalls st asked)
    | Returned session =>
        let accountName := account_displayName (session_account session) in
        (match Ext.main_setTrustedExtension main providerId accountName
                                            extensionId extensionName with
         | Returned _ => Returned (Some session)
         | Thrown e => Thrown e
         end,
         afterCalls st
           (asked ++ [Ext.Main_setTrustedExtension providerId accountName
                                                   extensionId extensionName]))
    end.
Proof.
  intros extensionId extensionName asked Hreg Hall Hnone Hcreate Hprompt.
  unfold Ext.getSession, Ext.bind, Ext.getProviders, Ext.await, Ext.ret.
  rewrite Hreg, Hall.
  unfold matchingSessions, Ext.orderedScopesOf in Hnone. rewrite Hnone.
  rewrite Hcreate. fold extensionId extensionName. rewrite Hprompt.
  cbn [negb fst snd Ext.authenticationProviders Ext.calls].
  unfold afterCalls. subst asked.
  destruct (Ext.Provider.login provider (sort scopes)) as [session|e].
  - cbn [fst snd Ext.authenticationProviders Ext.calls].
    destruct (Ext.main_setTrustedExtension _ _ _ _ _) as [[]|e];
      simpl; rewrite <- !app_assoc; reflexivity.
  - simpl. rewrite <- !app_assoc. reflexivity.
Qed.

Lemma getSession_logs_in_witness :
  Ext.getSession (Sample.main true) Sample.foo "acme" ["user"; "gist"]
                 {| Ext.createIfNone := Some true;
                    Ext.clearSessionPreference := None |}
                 Sample.withAcme
  = (Returned (Some (Sample.newSession ["gist"; "user"])),
     afterCalls Sample.withAcme
       [Ext.Provider_getSessions "acme";
        Ext.Main_loginPrompt "Acme" "Foo";
        Ext.Provider_login "acme" ["gist"; "user"];
        Ext.Main_setTrustedExtension "acme" "octocat" "ext.foo" "Foo"]).
Proof.
  exact (getSession_logs_in
           (Sample.main true) Sample.foo "acme" ["user"; "gist"]
           {| Ext.createIfNone := Some true;
              Ext.clearSessionPreference := None |}
           Sample.withAcme Sample.acmeExt [Sample.repoSession]
           eq_refl eq_refl eq_refl eq_refl eq_refl).
Defined.

(** X17.  A provider with multiple accounts has sessions that match and
    the host answers the selection: [getSession] calls nothing but
    [getSessions] and the selection, it never throws, and it resolves to
    the matching session with the id selected, or to [undefined] when no
    matching session has that id. *)
Theorem getSession_selects
        (main : Ext.AuthenticationMain) (requestingExtension : Ext.PluginModel)
        (providerId : string) (scopes : list string)
        (options : Ext.AuthenticationGetSessionOptions) (st : Ext.ExtState)
        (provider : Ext.Provider.t) (all : list AuthenticationSession)
        (selected : AuthenticationSession) :
  let extensionId := toLowerCase (Ext.model_id requestingExtension) in
  let extensionName := orElse (Ext.model_displayName requestingExtension)
                              (Ext.model_name requestingExtension) in
  let selection :=
    Ext.Main_selectSession providerId (Ext.Provider.displayName provider)
      extensionId extensionName (matchingSessions scopes all) (sort scopes)
      (truthy (Ext.clearSessionPreference options)) in
  let result :=
    Ext.getSession main requestingExtension providerId scopes options st in
  Ext.authenticationProviders st !! providerId = Some provider ->
  Ext.Provider.getSessions provider = Returned all ->
  Ext.Provider.supportsMultipleAccounts provider = true ->
  matchingSessions scopes all <> [] ->
  Ext.main_selectSession main providerId (Ext.Provider.displayName provider)
    extensionId extensionName (matchingSessions scopes all) (sort scopes)
    (truthy (Ext.clearSessionPreference options))
  = Returned selected ->
  snd result = afterCalls st [Ext.Provider_getSessions providerId; selection] /\
  match fst result with
  | Returned (Some session) =>
      In session (matchingSessions scopes all) /\
      session_id session = session_id selected
  | Returned None =>
      forall session,
        In session (matchingSessions scopes all) ->
        session_id session <> session_id selected
  | Thrown _ => False
  end.
Proof.
  intros extensionId extensionName selection result
         Hreg Hall Hmulti Hsome Hselect.
  subst result selection.
  unfold Ext.getSession, Ext.bind, Ext.getProviders, Ext.await, Ext.ret.
  rewrite Hreg, Hall.
  unfold matchingSessions, Ext.orderedScopesOf in *.
  destruct (List.filter _ _) as [|first rest] eqn:Hm; [congruence|].
  rewrite Hmulti. fold extensionId extensionName. rewrite Hselect.
  cbn [negb fst snd Ext.authenticationProviders Ext.calls].
  split; [unfold afterCalls; cbn; rewrite <- app_assoc; reflexivity|].
  destruct (Ext.findSession (session_id selected) (first :: rest))
    as [session|] eqn:Hfind.
  - apply findSession_Some, Hfind.
  - apply findSession_None, Hfind.
Qed.

Lemma getSession_selects_witness :
  In Sample.repoSession
     (matchingSessions ["repo"]
                       [Sample.repoSession; Sample.repoSessionOfHubot]) /\
  session_id Sample.repoSession = session_id Sample.repoSession.
Proof.
  exact (proj2 (getSession_selects
                  (Sample.main true) Sample.foo "hub" ["repo"]
                  {| Ext.createIfNone := None;
                     Ext.clearSessionPreference := None |}
                  Sample.withHub Sample.hub
                  [Sample.repoSession; Sample.repoSessionOfHubot]
                  Sample.repoSession
                  eq_refl eq_refl eq_refl ltac:(discriminate) eq_refl)).
Defined.

Section HasSessions.

Lemma matchingSessions_of_reported (scopes : list string)
      (all : list AuthenticationSession) (s : AuthenticationSession) :
  In s all ->
  Ext.orderedScopesOf (session_scopes s) = Ext.orderedScopesOf scopes ->
  In (sortScopes s) (matchingSessions scopes all).
Proof.
  intros Hin Hkey. unfold matchingSessions.
  apply List.filter_In. split; [apply List.in_map, Hin|].
  unfold Ext.hasOrderedScopes. simpl. apply String.eqb_eq. exact Hkey.
Qed.

End HasSessions.

(** X18.  When the sessions of a provider can be had (from the provider
    if it is registered in the plugin host, through the proxy otherwise),
    [hasSessions] calls nothing else and answers true exactly when one of
    them has the canonical scopes asked for, which is when [getSession]
    would find a session to reuse or to select. *)
Theorem hasSessions_spec
        (main : Ext.AuthenticationMain) (providerId : string)
        (scopes : list string) (st st' : Ext.ExtState)
        (all : list AuthenticationSession) :
  Ext.resolveSessions main providerId st = (Returned all, st') ->
  exists answer,
    Ext.hasSessions main providerId scopes st = (Returned answer, st') /\
    (answer = true <->
     exists s, In s all /\
               Ext.orderedScopesOf (session_scopes s)
               = Ext.orderedScopesOf scopes) /\
    (answer = false <-> matchingSessions scopes all = []).
Proof.
  intros Hresolve. unfold Ext.hasSessions, Ext.bind. rewrite Hresolve.
  unfold Ext.ret. eexists. split; [reflexivity|].
  fold (Ext.orderedScopesOf scopes). fold (matchingSessions scopes all).
  destruct (matchingSessions scopes all) as [|first rest] eqn:Hm; simpl.
  - split; [|tauto]. split; [discriminate|].
    intros (s & Hin & Hkey).
    pose proof (matchingSessions_of_reported scopes all s Hin Hkey) as H.
    rewrite Hm in H. destruct H.
  - split; [|split; discriminate]. split; [|reflexivity]. intros _.
    assert (Hfirst : In first (matchingSessions scopes all))
      by (rewrite Hm; left; reflexivity).
    apply matchingSessions_In in Hfirst as (Hkey & reported & Hin & ->).
    exists reported. split; [exact Hin|].
    rewrite <- Hkey. unfold Ext.orderedScopesOf. simpl.
    rewrite sort_idempotent. reflexivity.
Qed.

Lemma hasSessions_spec_witness :
  exists answer,
    Ext.hasSessions (Sample.main true) "acme" ["repo"] Sample.withAcme
    = (Returned answer,
       afterCall Sample.withAcme (Ext.Provider_getSessions "acme")) /\
    (answer = true <->
     exists s, In s [Sample.repoSession] /\
               Ext.orderedScopesOf (session_scopes s)
               = Ext.orderedScopesOf ["repo"]) /\
    (answer = false <-> matchingSessions ["repo"] [Sample.repoSession] = []).
Proof.
  exact (hasSessions_spec (Sample.main true) "acme" ["repo"]
           Sample.withAcme
           (afterCall Sample.withAcme (Ext.Provider_getSessions "acme"))
           [Sample.repoSession] eq_refl).
Defined.

(** X19.  For a provider of the plugin host the order of the scopes asked
    for is of no account: [getSession] and [hasSessions] make the same
    calls and end alike on scope lists that are permutations of each
    other. *)
Theorem getSession_ignores_order
        (main : Ext.AuthenticationMain) (requestingExtension : Ext.PluginModel)
        (providerId : string) (S1 S2 : list string)
        (options : Ext.AuthenticationGetSessionOptions) (st : Ext.ExtState)
        (provider : Ext.Provider.t) :
  S1 ≡ₚ S2 ->
  Ext.authenticationProviders st !! providerId = Some provider ->
  Ext.getSession main requestingExtension providerId S1 options st
  = Ext.getSession main requestingExtension providerId S2 options st /\
  Ext.hasSessions main providerId S1 st = Ext.hasSessions main providerId S2 st.
Proof.
  intros Hperm Hreg.
  unfold Ext.getSession, Ext.hasSessions, Ext.bind, Ext.getProviders.
  rewrite Hreg, (sort_of_permutation S1 S2 Hperm). split; reflexivity.
Qed.

Lemma getSession_ignores_order_witness :
  ["user"; "gist"] ≡ₚ ["gist"; "user"] /\
  Ext.getSession (Sample.main true) Sample.foo "acme" ["user"; "gist"]
                 {| Ext.createIfNone := None;
                    Ext.clearSessionPreference := None |} Sample.withAcme
  = Ext.getSession (Sample.main true) Sample.foo "acme" ["gist"; "user"]
                   {| Ext.createIfNone := None;
                      Ext.clearSessionPreference := None |} Sample.withAcme.
Proof.
  assert (H : ["user"; "gist"] ≡ₚ ["gist"; "user"]) by apply perm_swap.
  split; [exact H|].
  exact (proj1 (getSession_ignores_order
                  (Sample.main true) Sample.foo "acme"
                  ["user"; "gist"] ["gist"; "user"]
                  {| Ext.createIfNone := None;
                     Ext.clearSessionPreference := None |}
                  Sample.withAcme Sample.acmeExt H eq_refl)).
Defined.

(** ** The sign-in requests of a service built by calls *)

Section Constructed.

Import Service.

Variable updateSessionItems :
  Provider.t -> AuthenticationSessionsChangeEvent -> Provider.t * outcome unit.




End Constructed.




